(** * prefect.environments: the packaging descriptors and their build/run
      lifecycle

    A shallow embedding of [src/prefect/environments.py].  Python values
    that the module only passes around (flows, engine states, runner
    options) are abstract types; everything the module reaches through an
    imported library (cloudpickle, cryptography.fernet, base64, json,
    textwrap, uuid, tempfile, the Docker daemon behind docker.APIClient, the
    serialization schemas and the flow runner of the rest of prefect) is a
    field of the [Externals] interface, and so is what [filecmp] and
    [shutil] depend on beyond the contents and times of files: the result
    cache of the one, the permissions the other meets.  The effects of the module itself
    (file system, daemon requests, standard output, the log, the objects it
    allocates, exceptions) are threaded through an explicit state-and-error
    monad over [World]. *)

From Stdlib Require Import ZArith.
From stdpp Require Import base option list gmap strings pretty.

Local Open Scope string_scope.

(** ** Exceptions and outcomes *)

(** The exceptions that can cross a method boundary of the module.
    [ValueError] is the only class the module raises itself; the others are
    raised by library calls it does not guard. *)
Inductive Exn : Type :=
  | ValueError (msg : string)
  | TypeError (msg : string)
  | AttributeError (msg : string)
  | InvalidToken
  | FileNotFoundError (path : string)
  | SameFileError (path : string)
  | PermissionError (path : string)
  | ExternalError (origin msg : string).

Inductive Outcome (A : Type) : Type :=
  | Returns (a : A)
  | Raises (e : Exn).
Arguments Returns {A} a.
Arguments Raises {A} e.

Definition is_ValueError (e : Exn) : bool :=
  match e with ValueError _ => true | _ => false end.

(** ** Plain data *)

(** Python [bytes] and [str] are both modelled as [string] (a list of 8-bit
    characters). *)
Definition bytes := string.

Definition nl : string := String (Ascii.ascii_of_nat 10) "".
Definition dquote : string := String (Ascii.ascii_of_nat 34) "".
Definition slash : Ascii.ascii := Ascii.ascii_of_nat 47.

(** [str(x)] for an optional string: [None] prints as the word None. *)
Definition py_str (o : option string) : string :=
  match o with Some s => s | None => "None" end.

(** Truthiness of an optional string ([None] and the empty string are
    falsy). *)
Definition truthy (o : option string) : bool :=
  match o with
  | None => false
  | Some "" => false
  | Some _ => true
  end.

(** [sep.join(parts)] *)
Fixpoint str_join (sep : string) (parts : list string) : string :=
  match parts with
  | [] => ""
  | [p] => p
  | p :: rest => p +:+ sep +:+ str_join sep rest
  end.

(** [" " * n] *)
Fixpoint spaces (n : nat) : string :=
  match n with
  | O => ""
  | S k => " " +:+ spaces k
  end.

(** [s.split("\n")]: always at least one piece. *)
Fixpoint split_lines_aux (cur : string) (s : string) : list string :=
  match s with
  | EmptyString => [String.rev cur]
  | String c rest =>
      if Ascii.eqb c (Ascii.ascii_of_nat 10)
      then String.rev cur :: split_lines_aux "" rest
      else split_lines_aux (String c cur) rest
  end.
Definition split_lines (s : string) : list string := split_lines_aux "" s.

(** [s.strip("\n")] *)
Fixpoint lstrip_nl (s : string) : string :=
  match s with
  | String c rest =>
      if Ascii.eqb c (Ascii.ascii_of_nat 10) then lstrip_nl rest else s
  | EmptyString => EmptyString
  end.
Definition strip_nl (s : string) : string :=
  String.rev (lstrip_nl (String.rev (lstrip_nl s))).

(** ** os.path (POSIX flavour) *)
Module os_path.

(** [os.path.isabs(p)]: the path starts with a slash. *)
Definition isabs (p : string) : bool :=
  match p with
  | String c _ => Ascii.eqb c slash
  | EmptyString => false
  end.

Fixpoint has_slash (p : string) : bool :=
  match p with
  | EmptyString => false
  | String c rest => Ascii.eqb c slash || has_slash rest
  end.

(** [os.path.basename(p)]: what follows the last slash. *)
Fixpoint basename (p : string) : string :=
  match p with
  | EmptyString => EmptyString
  | String _ rest => if has_slash p then basename rest else p
  end.

(** [os.path.join(a, b)] for two string components. *)
Definition join (a b : string) : string :=
  if isabs b then b
  else match String.rev a with
       | EmptyString => b
       | String c _ => if Ascii.eqb c slash then a +:+ b
                       else a +:+ "/" +:+ b
       end.

(** [os.path.join(a, b)] where [b] may be [None]: the library rejects a
    component that is not a path (the wording of the message varies with
    the version of Python). *)
Definition join_opt (a : string) (b : option string) : Outcome string :=
  match b with
  | Some b' => Returns (join a b')
  | None =>
      Raises (TypeError
        "join() argument must be str, bytes, or os.PathLike object, not 'NoneType'")
  end.

End os_path.

(** ** Descriptors *)

(** [LocalEnvironment]: the two attributes set by [__init__]. *)
Record LocalEnvironment : Type := mkLocal {
  encryption_key : bytes;
  serialized_flow : option bytes;
}.

(** [ContainerEnvironment]: the seven attributes set by [__init__].  The
    dictionaries [env_vars] and [files] keep their insertion order, which the
    generated Dockerfile and the error message of [__init__] depend on. *)
Record ContainerEnvironment : Type := mkContainer {
  base_image : string;
  registry_url : string;
  image_name : option string;
  image_tag : option string;
  python_dependencies : list string;
  env_vars : list (string * string);
  files : list (string * string);
}.

(** A reference to a [ContainerEnvironment] instance: its index in the
    allocation order. *)
Definition ref := nat.

(** ** The daemon interface *)

(** One progress record of a decoded [pull] or [push] stream. *)
Record Progress : Type := mkProgress {
  status : option string;
  progress : option string;
}.

(** A response consumed as an iterator: the items it yields and, possibly,
    the exception that ends the iteration. *)
Record Stream (A : Type) : Type := mkStream {
  items : list A;
  failure : option Exn;
}.
Arguments mkStream {A} items failure.
Arguments items {A} s.
Arguments failure {A} s.

(** The keyword arguments of [APIClient.build] that reach the daemon.  The
    module passes [path], [tag] and [forcerm]; [nocache] and [rm] are not
    passed and keep the defaults of the client's signature. *)
Record BuildRequest : Type := mkBuildRequest {
  br_path : string;
  br_tag : string;
  br_forcerm : bool;
  br_nocache : bool;
  br_rm : bool;
}.

(** A call [APIClient.build(path=.., tag=.., forcerm=.., nocache=.., rm=..)]:
    a keyword that is not passed ([None]) takes the default of the client's
    signature, which is [False] for each of the three switches. *)
Definition APIClient_build_request (path tag : string)
    (forcerm nocache rm : option bool) : BuildRequest :=
  {| br_path := path; br_tag := tag;
     br_forcerm := default false forcerm;
     br_nocache := default false nocache;
     br_rm := default false rm |}.

(** The requests the module sends to the daemon, and the one call into the
    execution engine, in the order they are issued. *)
Inductive Call : Type :=
  | Pull (image : string)
  | Build (req : BuildRequest)
  | Push (name tag : string)
  | RemoveImage (image : string) (force : bool)
  | CreateContainer (image command : string) (detach : bool)
  | RunFlow (payload : bytes).

Definition is_Push (c : Call) : bool :=
  match c with Push _ _ => true | _ => false end.
Definition is_RemoveImage (c : Call) : bool :=
  match c with RemoveImage _ _ => true | _ => false end.

(** ** The world *)

(** A regular file: the part of its [os.stat] signature that can vary
    between two regular files is the size (the length of [content]) and the
    modification time. *)
Record File : Type := mkFile {
  mtime : Z;
  content : bytes;
}.

(** How [shutil.copy2] is refused: on [refused_path], either before
    anything is written (a source that may not be read, a destination that
    may not be written) or once the contents are written and the times and
    mode of the source cannot be given to the copy. *)
Record Refusal : Type := mkRefusal {
  refused_path : string;
  contents_written : bool;
}.

Record World : Type := mkWorld {
  fs : gmap string File;            (* path -> regular file *)
  heap : list ContainerEnvironment; (* the instances allocated so far *)
  calls : list Call;                (* requests issued, oldest first *)
  stdout : list string;             (* lines printed, oldest first *)
  log : list string;                (* logging.info records *)
  rng : nat;                        (* random draws consumed so far *)
  clock : Z;                        (* time stamp given to written files *)
  access_token : option string;     (* os.getenv("PERSONAL_ACCESS_TOKEN") *)
}.

(** ** Collaborators *)

(** Everything the module imports.  Random sources are indexed by the number
    of draws made so far; the daemon's answers may depend on the requests it
    has already served. *)
Class Externals : Type := {
  Flow : Type;
  State : Type;
  Kwargs : Type;
  Container : Type;
  (* cloudpickle; [Flow] is the type of the values it can pickle *)
  cloudpickle_dumps : Flow -> bytes;
  cloudpickle_loads : bytes -> Outcome Flow;
  (* cryptography.fernet *)
  Fernet_accepts : bytes -> bool;
  Fernet_generate_key : nat -> bytes;
  Fernet_encrypt : bytes -> nat -> bytes -> bytes;
  Fernet_decrypt : bytes -> bytes -> option bytes;
  (* base64 *)
  b64encode : bytes -> bytes;
  b64decode : bytes -> Outcome bytes;
  (* filecmp and shutil: the state of the process and of the file system
     that [World] does not record.  [filecmp_cached w f1 f2] is what the
     result cache of [filecmp] holds, when consulted in [w], under the key
     of [f1], [f2] and their current signatures; [filecmp_denied w f1 f2]
     is the path on which reading [f1] and [f2] to compare them is refused
     in [w], if it is; [copy2_denied w src dst] tells whether and how
     copying an existing [src] over [dst] is refused in [w] (owners and
     permission bits are not part of [File]) *)
  filecmp_cached : World -> string -> string -> option bool;
  filecmp_denied : World -> string -> string -> option string;
  copy2_denied : World -> string -> string -> option Refusal;
  (* uuid, tempfile, json, textwrap *)
  uuid4 : nat -> string;
  mkdtemp : nat -> string;
  utf8_decode : bytes -> Outcome string;
  json_loads_get_stream : string -> Outcome (option string);
  textwrap_dedent : string -> string;
  (* prefect.serialization.environment.EnvironmentSchema and json.dump *)
  schema_dump_json : LocalEnvironment -> string;
  (* the default flow runner of prefect.engine, built on the flow and run *)
  flow_runner_run : Flow -> option Kwargs -> Outcome State;
  (* the Docker daemon *)
  daemon_pull : list Call -> string -> Stream Progress;
  daemon_build : list Call -> BuildRequest -> Stream bytes;
  daemon_push : list Call -> string -> string -> Stream Progress;
  daemon_remove_image : list Call -> string -> bool -> Outcome unit;
  daemon_create_container :
    list Call -> string -> string -> bool -> Outcome Container;
}.

(** ** The state-and-error monad *)

Definition M (A : Type) : Type := World -> Outcome A * World.

Definition ret {A} (a : A) : M A := fun w => (Returns a, w).
Definition raise {A} (e : Exn) : M A := fun w => (Raises e, w).
Definition bind {A B} (m : M A) (k : A -> M B) : M B :=
  fun w => match m w with
           | (Returns a, w') => k a w'
           | (Raises e, w') => (Raises e, w')
           end.
Definition lift {A} (o : Outcome A) : M A := fun w => (o, w).
Definition gets {A} (f : World -> A) : M A := fun w => (Returns (f w), w).
Definition modify (f : World -> World) : M unit := fun w => (Returns tt, f w).

#[global] Instance M_ret : MRet M := @ret.
#[global] Instance M_bind : MBind M := fun A B k m => bind m k.

(** [try: body except Exception: handler] *)
Definition try_except {A} (body : M A) (handler : Exn -> M A) : M A :=
  fun w => match body w with
           | (Returns a, w') => (Returns a, w')
           | (Raises e, w') => handler e w'
           end.

(** [for x in xs: body x], stopping at the first exception. *)
Fixpoint for_each {A} (xs : list A) (body : A -> M unit) : M unit :=
  match xs with
  | [] => ret tt
  | x :: rest => body x ;; for_each rest body
  end.

(** Iterating over a daemon response: the items, then the failure if any. *)
Definition for_stream {A} (s : Stream A) (body : A -> M unit) : M unit :=
  for_each (items s) body ;;
  match failure s with
  | Some e => raise e
  | None => ret tt
  end.

(** *** World updates *)

Definition set_fs (f : gmap string File -> gmap string File) (w : World) : World :=
  {| fs := f (fs w); heap := heap w; calls := calls w; stdout := stdout w;
     log := log w; rng := rng w; clock := clock w;
     access_token := access_token w |}.
Definition set_heap (f : list ContainerEnvironment -> list ContainerEnvironment)
    (w : World) : World :=
  {| fs := fs w; heap := f (heap w); calls := calls w; stdout := stdout w;
     log := log w; rng := rng w; clock := clock w;
     access_token := access_token w |}.
Definition set_calls (f : list Call -> list Call) (w : World) : World :=
  {| fs := fs w; heap := heap w; calls := f (calls w); stdout := stdout w;
     log := log w; rng := rng w; clock := clock w;
     access_token := access_token w |}.
Definition set_stdout (f : list string -> list string) (w : World) : World :=
  {| fs := fs w; heap := heap w; calls := calls w; stdout := f (stdout w);
     log := log w; rng := rng w; clock := clock w;
     access_token := access_token w |}.
Definition set_log (f : list string -> list string) (w : World) : World :=
  {| fs := fs w; heap := heap w; calls := calls w; stdout := stdout w;
     log := f (log w); rng := rng w; clock := clock w;
     access_token := access_token w |}.
Definition set_rng (f : nat -> nat) (w : World) : World :=
  {| fs := fs w; heap := heap w; calls := calls w; stdout := stdout w;
     log := log w; rng := f (rng w); clock := clock w;
     access_token := access_token w |}.

(** [print(line)] and [logging.info(msg)] *)
Definition print (line : string) : M unit :=
  modify (set_stdout (fun out => (out ++ [line])%list)).
Definition logging_info (msg : string) : M unit :=
  modify (set_log (fun l => (l ++ [msg])%list)).

(** One draw from a random source. *)
Definition draw {A} (source : nat -> A) : M A :=
  fun w => (Returns (source (rng w)), set_rng S w).

(** Sending [c] to the daemon: the request is recorded, and the answer is
    computed from the requests served before it. *)
Definition request {A} (c : Call) (answer : list Call -> A) : M A :=
  fun w => (Returns (answer (calls w)), set_calls (fun cs => (cs ++ [c])%list) w).

(** ** The file system *)

(** Paths name regular files; directories are not modelled (a directory a
    method is given is assumed to exist, and no path below names one). *)

(** [os.path.exists(p)] *)
Definition os_path_exists (p : string) : M bool :=
  gets (fun w => match fs w !! p with Some _ => true | None => false end).

(** [os.stat(p)] on a regular file. *)
Definition os_stat (p : string) : M File :=
  fun w => match fs w !! p with
           | Some f => (Returns f, w)
           | None => (Raises (FileNotFoundError p), w)
           end.

(** The signature [filecmp] compares: size and modification time (the file
    type is the same for any two regular files). *)
Definition same_sig (f1 f2 : File) : bool :=
  Nat.eqb (String.length (content f1)) (String.length (content f2))
  && Z.eqb (mtime f1) (mtime f2).

(** [filecmp.cmp(f1, f2)] with its default [shallow=True]: two files whose
    signatures agree are taken as equal without being read, and files of
    different sizes differ.  For files of one size and different
    modification times the answer comes from the module-level cache of
    [filecmp] when it has an entry for the two paths and signatures, stale
    or not, and from a comparison byte by byte when it has none; that
    comparison opens both files, which may be refused. *)
Definition filecmp_cmp `{Externals} (f1 f2 : string) : M bool :=
  s1 ← os_stat f1 ;
  s2 ← os_stat f2 ;
  if same_sig s1 s2 then ret true
  else if negb (Nat.eqb (String.length (content s1)) (String.length (content s2)))
       then ret false
       else outcome ← gets (fun w => filecmp_cached w f1 f2) ;
            match outcome with
            | Some cached => ret cached
            | None =>
                denied ← gets (fun w => filecmp_denied w f1 f2) ;
                match denied with
                | Some path => raise (PermissionError path)
                | None => ret (String.eqb (content s1) (content s2))
                end
            end.

(** Opening [path] for writing, writing [text] and closing it. *)
Definition write_file (path : string) (text : string) : M unit :=
  fun w => (Returns tt,
            set_fs (fun m => <[path := {| mtime := clock w; content := text |}]> m) w).

(** [shutil.copy2(src, dst)]: contents and modification time are copied;
    copying a file onto itself is refused, a missing source is an error,
    and so is a source or a destination that may not be opened.  When it is
    the metadata that cannot be set, the contents have been written by
    then, at the time of the clock. *)
Definition shutil_copy2 `{Externals} (src dst : string) : M unit :=
  if String.eqb src dst then raise (SameFileError src)
  else f ← os_stat src ;
       denied ← gets (fun w => copy2_denied w src dst) ;
       match denied with
       | Some refusal =>
           (if contents_written refusal
            then write_file dst (content f)
            else ret tt) ;;
           raise (PermissionError (refused_path refusal))
       | None => modify (set_fs (fun m => <[dst := f]> m))
       end.

(** Is [p] a path below directory [d]? *)
Definition below (d p : string) : bool := String.prefix (d +:+ "/") p.

Section Methods.

Context `{Externals}.

(** [with tempfile.TemporaryDirectory() as tempdir: body]: the directory
    and what was written below it are removed on every exit. *)
Definition with_TemporaryDirectory {A} (body : string -> M A) : M A :=
  fun w =>
    let tempdir := mkdtemp (rng w) in
    let '(r, w') := body tempdir (set_rng S w) in
    (r, set_fs (filter (fun kv => below tempdir kv.1 = false)) w').

(** ** LocalEnvironment *)

(** [Fernet(key)]: the constructor rejects a malformed key. *)
Definition Fernet (key : bytes) : M bytes :=
  if Fernet_accepts key then ret key
  else raise (ValueError "Fernet key must be 32 url-safe base64-encoded bytes.").

Definition LocalEnvironment_init
    (encryption_key : option bytes) (serialized_flow : option bytes)
    : M LocalEnvironment :=
  key ← match encryption_key with
         | None => draw Fernet_generate_key
         | Some k =>
             try_except (Fernet k ;; ret k)
                        (fun _ => raise (ValueError "Invalid encryption key."))
         end ;
  ret {| encryption_key := key; serialized_flow := serialized_flow |}.

Definition serialize_flow_to_bytes (self : LocalEnvironment) (flow : Flow)
    : M bytes :=
  let pickled_flow := cloudpickle_dumps flow in
  f ← Fernet (encryption_key self) ;
  encrypted_pickle ← draw (fun n => Fernet_encrypt f n pickled_flow) ;
  let encoded_pickle := b64encode encrypted_pickle in
  ret encoded_pickle.

Definition deserialize_flow_from_bytes (self : LocalEnvironment)
    (serialized_flow : bytes) : M Flow :=
  decoded_pickle ← lift (b64decode serialized_flow) ;
  f ← Fernet (encryption_key self) ;
  decrypted_pickle ← match Fernet_decrypt f decoded_pickle with
                      | Some p => ret p
                      | None => raise InvalidToken
                      end ;
  flow ← lift (cloudpickle_loads decrypted_pickle) ;
  ret flow.

Definition LocalEnvironment_build (self : LocalEnvironment) (flow : Flow)
    : M LocalEnvironment :=
  payload ← serialize_flow_to_bytes self flow ;
  LocalEnvironment_init (Some (encryption_key self)) (Some payload).

(** [run]: the guard [if not self.serialized_flow] rejects both [None] and
    the empty payload. *)
Definition LocalEnvironment_run (self : LocalEnvironment)
    (runner_kwargs : option Kwargs) : M State :=
  match serialized_flow self with
  | Some (String c rest) =>
      let payload := String c rest in
      flow ← deserialize_flow_from_bytes self payload ;
      modify (set_calls (fun cs => (cs ++ [RunFlow payload])%list)) ;;
      lift (flow_runner_run flow runner_kwargs)
  | _ =>
      raise (ValueError
               "No serialized flow found! Has this environment been built?")
  end.

(** [Environment.to_file] on a [LocalEnvironment]. *)
Definition LocalEnvironment_to_file (self : LocalEnvironment) (path : string)
    : M unit :=
  write_file path (schema_dump_json self).

(** ** ContainerEnvironment *)

(** Allocation of a new instance, and attribute access through a
    reference (a reference that [__init__] returned is never dangling). *)
Definition alloc (o : ContainerEnvironment) : M ref :=
  fun w => (Returns (length (heap w)), set_heap (fun h => (h ++ [o])%list) w).

Definition attrs (self : ref) : M ContainerEnvironment :=
  fun w => match heap w !! self with
           | Some o => (Returns o, w)
           | None => (Raises (AttributeError "no such instance"), w)
           end.

(** [__init__]: the attributes are assigned first, the check of [files]
    comes last (primed names are the constructor's arguments). *)
Definition ContainerEnvironment_init
    (base_image' registry_url' : string)
    (python_dependencies' : option (list string))
    (image_name' image_tag' : option string)
    (env_vars' files' : option (list (string * string))) : M ref :=
  self ← alloc {| base_image := base_image';
                  registry_url := registry_url';
                  image_name := image_name';
                  image_tag := image_tag';
                  python_dependencies := default [] python_dependencies';
                  env_vars := default [] env_vars';
                  files := default [] files' |} ;
  o ← attrs self ;
  let not_absolute :=
    List.filter (fun file_path => negb (os_path.isabs file_path))
                (map fst (files o)) in
  match not_absolute with
  | _ :: _ =>
      raise (ValueError
        ("Provided paths " +:+ str_join ", " not_absolute +:+
         " are not absolute file paths, please provide absolute paths only."))
  | [] => ret self
  end.

(** [_parse_generator_output]: the build log is decoded, cut into lines,
    and the [stream] field of every non-empty line is printed unless it is
    empty or a lone newline. *)
Definition _parse_generator_output (generator : Stream bytes) : M unit :=
  for_stream generator (fun item =>
    item ← lift (utf8_decode item) ;
    for_each (split_lines item) (fun line =>
      match line with
      | EmptyString => ret tt
      | _ =>
          output ← lift (json_loads_get_stream line) ;
          if truthy output && negb (String.eqb (py_str output) nl)
          then print (strip_nl (py_str output))
          else ret tt
      end)).

(** The loop shared by [pull_image] and [push]: a record that carries
    progress data is printed as its status and progress. *)
Definition print_progress (output : Stream Progress) : M unit :=
  for_stream output (fun line =>
    if truthy (progress line)
    then print (py_str (status line) +:+ " " +:+ py_str (progress line))
    else ret tt).

Definition pull_image (self : ref) : M unit :=
  o ← attrs self ;
  output ← request (Pull (base_image o))
                   (fun served => daemon_pull served (base_image o)) ;
  print_progress output.

Definition push (self : ref) (image_name' image_tag' : string) : M unit :=
  logging_info "Pushing image to the registry..." ;;
  output ← request (Push image_name' image_tag')
                   (fun served => daemon_push served image_name' image_tag') ;
  print_progress output.

(** One round of the loop over [files] in [create_dockerfile]: the file is
    staged under its base name unless a different file is already there,
    and the COPY directive for it is returned. *)
Definition stage_file (directory src dest : string) : M string :=
  let fname := os_path.basename src in
  let full_fname := os_path.join directory fname in
  present ← os_path_exists full_fname ;
  conflict ← (if present : bool
              then same ← filecmp_cmp src full_fname ; ret (negb same)
              else ret false) ;
  (if conflict : bool
   then raise (ValueError ("File " +:+ full_fname +:+ " already exists in "
                           +:+ directory))
   else shutil_copy2 src full_fname) ;;
  ret ("COPY " +:+ fname +:+ " " +:+ dest +:+ nl).

Fixpoint stage_files (directory : string) (entries : list (string * string))
    : M string :=
  match entries with
  | [] => ret ""
  | (src, dest) :: rest =>
      line ← stage_file directory src dest ;
      more ← stage_files directory rest ;
      ret (line +:+ more)
  end.

(** The text handed to [textwrap.dedent], with its five fields filled in. *)
Definition dockerfile_text
    (base pip_installs copy_files env_vars' token : string) : string :=
  let i := spaces 16 in
  i +:+ "FROM " +:+ base +:+ nl +:+
  nl +:+
  i +:+ "RUN apt-get -qq -y update && apt-get -qq -y install --no-install-recommends --no-install-suggests git" +:+ nl +:+
  nl +:+
  i +:+ "RUN pip install pip --upgrade" +:+ nl +:+
  i +:+ "RUN pip install wheel" +:+ nl +:+
  i +:+ pip_installs +:+ nl +:+
  nl +:+
  i +:+ "RUN mkdir /root/.prefect/" +:+ nl +:+
  i +:+ "COPY flow_env.prefect /root/.prefect/flow_env.prefect" +:+ nl +:+
  i +:+ copy_files +:+ nl +:+
  nl +:+
  i +:+ "ENV PREFECT_ENVIRONMENT_FILE=" +:+ dquote +:+
        "/root/.prefect/flow_env.prefect" +:+ dquote +:+ nl +:+
  i +:+ "ENV PREFECT__USER_CONFIG_PATH=" +:+ dquote +:+
        "/root/.prefect/config.toml" +:+ dquote +:+ nl +:+
  i +:+ env_vars' +:+ nl +:+
  nl +:+
  i +:+ "RUN git clone https://" +:+ token +:+
        "@github.com/PrefectHQ/prefect.git" +:+ nl +:+
  i +:+ "RUN pip install ./prefect" +:+ nl +:+
  i.

Definition create_dockerfile (self : ref) (flow : Flow) (directory : string)
    : M unit :=
  let dockerfile := os_path.join directory "Dockerfile" in
  write_file dockerfile "" ;;
  o ← attrs self ;
  let pip_installs :=
    String.concat ""
      (map (fun dependency => "RUN pip install " +:+ dependency +:+ nl)
           (python_dependencies o)) in
  let env_vars' :=
    match env_vars o with
    | [] => ""
    | _ => "ENV " +:+ str_join (" \ " +:+ nl +:+ spaces 20)
                             (map (fun kv => kv.1 +:+ "=" +:+ kv.2) (env_vars o))
    end in
  copy_files ← stage_files directory (files o) ;
  fresh_environment ← LocalEnvironment_init None None ;
  local_environment ← LocalEnvironment_build fresh_environment flow ;
  let flow_path := os_path.join directory "flow_env.prefect" in
  LocalEnvironment_to_file local_environment flow_path ;;
  token ← gets access_token ;
  let file_contents :=
    textwrap_dedent
      (dockerfile_text (base_image o) pip_installs copy_files env_vars'
                       (py_str token)) in
  write_file dockerfile file_contents.

Definition ContainerEnvironment_build (self : ref) (flow : Flow)
    (push' : bool) : M ref :=
  image_name' ← draw uuid4 ;
  image_tag' ← draw uuid4 ;
  with_TemporaryDirectory (fun tempdir =>
    pull_image self ;;
    create_dockerfile self flow tempdir ;;
    o ← attrs self ;
    let full_name := os_path.join (registry_url o) image_name' in
    logging_info "Building the flow's container environment..." ;;
    let req := APIClient_build_request
                 tempdir (full_name +:+ ":" +:+ image_tag')
                 (Some true) None None in
    output ← request (Build req) (fun served => daemon_build served req) ;
    _parse_generator_output output ;;
    (if push' then push self full_name image_tag' else ret tt) ;;
    (* Remove the image locally after being pushed *)
    let image := full_name +:+ ":" +:+ image_tag' in
    removed ← request (RemoveImage image true)
                      (fun served => daemon_remove_image served image true) ;
    lift removed ;;
    o ← attrs self ;
    ContainerEnvironment_init (base_image o) (registry_url o)
                              (Some (python_dependencies o))
                              (Some image_name') (Some image_tag')
                              None None).

Definition ContainerEnvironment_run (self : ref)
    (runner_kwargs : option Kwargs) : M Container :=
  o ← attrs self ;
  name ← lift (os_path.join_opt (registry_url o) (image_name o)) ;
  let image := name +:+ ":" +:+ py_str (image_tag o) in
  let command :=
    "bash -c " +:+ dquote +:+ "prefect run $PREFECT_ENVIRONMENT_FILE"
    +:+ dquote in
  running_container ← request (CreateContainer image command true)
    (fun served => daemon_create_container served image command true) ;
  lift running_container.

End Methods.

(** ** Loading a persisted environment *)

(** [from_file(path)]: the file is read and handed to [json.load] and
    [EnvironmentSchema.load].  The schema lives in
    [prefect.serialization.environment]; the two loaders together are the
    parameter [schema_load_json], as [schema_dump_json] is for the other
    direction. *)
Definition from_file {E : Type} (schema_load_json : string -> Outcome E)
    (path : string) : M E :=
  f ← os_stat path ;
  lift (schema_load_json (content f)).

(** ** A small concrete set of collaborators

    Used to run the methods on explicit inputs.  Flows are strings, pickled
    by prefixing a marker; the cipher prepends the key to the message and,
    to decrypt, insists on finding the same key there; base64 prepends a tag
    that decoding requires; UTF-8 decoding is the identity; the cache of
    [filecmp] is empty, every file may be read and no copy is refused; the
    daemon answers every request with an empty stream and refuses nothing,
    except where a scenario below says otherwise. *)
Module Demo.

Fixpoint strip_prefix (p s : string) : option string :=
  match p, s with
  | EmptyString, _ => Some s
  | String a p', String b s' =>
      if Ascii.eqb a b then strip_prefix p' s' else None
  | String _ _, EmptyString => None
  end.

Definition loads (b : bytes) : Outcome string :=
  match strip_prefix "pickle:" b with
  | Some f => Returns f
  | None => Raises (ExternalError "pickle" "invalid load key")
  end.

Definition untag (b : bytes) : Outcome bytes :=
  match strip_prefix "b64:" b with
  | Some raw => Returns raw
  | None => Raises (ExternalError "binascii" "Incorrect padding")
  end.

Definition quiet {A} : Stream A := {| items := []; failure := None |}.

(** The daemon of the scenarios: [remove_ok] tells whether it honours a
    request to remove an image. *)
Definition externals (remove_ok : bool) : Externals :=
  {| Flow := string;
     State := string;
     Kwargs := unit;
     Container := string;
     cloudpickle_dumps := fun f => "pickle:" +:+ f;
     cloudpickle_loads := loads;
     Fernet_accepts := fun k => Nat.eqb (String.length k) 4;
     Fernet_generate_key := fun n => "key" +:+ pretty n;
     Fernet_encrypt := fun k _ m => k +:+ m;
     Fernet_decrypt := strip_prefix;
     b64encode := fun b => "b64:" +:+ b;
     b64decode := untag;
     filecmp_cached := fun _ _ _ => None;
     filecmp_denied := fun _ _ _ => None;
     copy2_denied := fun _ _ _ => None;
     uuid4 := fun n => "uuid-" +:+ pretty n;
     mkdtemp := fun n => "/tmp/tmp" +:+ pretty n;
     utf8_decode := fun b => Returns b;
     json_loads_get_stream := fun line => Returns (Some line);
     textwrap_dedent := fun s => s;
     schema_dump_json := fun e => "{" +:+ encryption_key e +:+ "}";
     flow_runner_run := fun f _ => Returns ("Success(" +:+ f +:+ ")");
     daemon_pull := fun _ _ => quiet;
     daemon_build := fun _ _ => quiet;
     daemon_push := fun _ _ _ => quiet;
     daemon_remove_image := fun _ image _ =>
       if remove_ok then Returns tt
       else Raises (ExternalError "docker" "image is being used");
     daemon_create_container := fun _ image _ _ => Returns ("container of " +:+ image) |}.

Definition world0 : World :=
  {| fs := ∅; heap := []; calls := []; stdout := []; log := []; rng := 0;
     clock := 1000; access_token := None |}.

(** End-to-end scenario 2 of the specification, unbuilt. *)
Definition unbuilt : ContainerEnvironment :=
  {| base_image := "python:3.7"; registry_url := "myrepo";
     image_name := None; image_tag := None;
     python_dependencies := ["requests"]; env_vars := []; files := [] |}.

Definition world1 : World :=
  {| fs := ∅; heap := [unbuilt]; calls := []; stdout := []; log := [];
     rng := 0; clock := 1000; access_token := None |}.

(** Two sources with one base name, the same size and the same
    modification time, and different bytes. *)
Definition two_sources : World :=
  {| fs := <["/a/foo.txt" := {| mtime := 5; content := "aaa" |}]>
           (<["/b/foo.txt" := {| mtime := 5; content := "bbb" |}]> ∅);
     heap := []; calls := []; stdout := []; log := []; rng := 0;
     clock := 1000; access_token := None |}.

End Demo.

(** * Vocabulary of the statements *)

(** [hoare P m Q E]: from a world satisfying [P], [m] either returns a value
    and a world related by [Q], or raises an exception in a world related by
    [E].  Computations are total functions, so one of the two happens. *)
Definition hoare {A} (P : World -> Prop) (m : M A)
    (Q : A -> World -> Prop) (E : Exn -> World -> Prop) : Prop :=
  forall w, P w ->
    match m w with
    | (Returns a, w') => Q a w'
    | (Raises e, w') => E e w'
    end.

(** [keeps I m]: [m] preserves [I], whether it returns or raises. *)
Definition keeps {A} (I : World -> Prop) (m : M A) : Prop :=
  hoare I m (fun _ => I) (fun _ => I).

(** [I] survives every update of the world except allocation, provided the
    requests that are issued satisfy [ok]. *)
Record stable (I : World -> Prop) (ok : Call -> Prop) : Prop := {
  stable_fs : forall f w, I w -> I (set_fs f w);
  stable_stdout : forall f w, I w -> I (set_stdout f w);
  stable_log : forall f w, I w -> I (set_log f w);
  stable_rng : forall f w, I w -> I (set_rng f w);
  stable_call : forall c w, ok c -> I w ->
                            I (set_calls (fun cs => (cs ++ [c])%list) w);
}.

(** [I] survives the allocation of a new instance. *)
Definition stable_alloc (I : World -> Prop) : Prop :=
  forall o w, I w -> I (set_heap (fun h => (h ++ [o])%list) w).

(** [appended P w0 w]: the requests issued between [w0] and [w] all satisfy
    [P]. *)
Definition appended (P : Call -> Prop) (w0 w : World) : Prop :=
  exists cs, calls w = (calls w0 ++ cs)%list /\ Forall P cs.

(** ** Requests *)

(** A build request with [forcerm] set and the layer cache left on. *)
Definition forcerm_with_cache (c : Call) : Prop :=
  match c with
  | Build req => br_forcerm req = true /\ br_nocache req = false
  | _ => True
  end.

(** A build request with the layer cache disabled. *)
Definition cache_disabled (c : Call) : Prop :=
  match c with
  | Build req => br_nocache req = true
  | _ => True
  end.

(** A request other than the removal of an image. *)
Definition not_removal (c : Call) : Prop := is_RemoveImage c = false.

(** The removal of [image] has been requested. *)
Definition removal_requested (image : string) (w : World) : Prop :=
  RemoveImage image true ∈ calls w.

(** ** Instances *)

(** The instances allocated so far are those of [w0]. *)
Definition same_heap (w0 w : World) : Prop := heap w = heap w0.

(** The instance behind [self] is [o]. *)
Definition points_to (self : ref) (o : ContainerEnvironment) (w : World) : Prop :=
  heap w !! self = Some o.

(** The image reference [build] works on for receiver [o] in world [w], and
    the descriptor it constructs. *)
Definition built_image `{Externals} (o : ContainerEnvironment) (w : World)
    : string :=
  os_path.join (registry_url o) (uuid4 (rng w)) +:+ ":" +:+ uuid4 (S (rng w)).

Definition built_from `{Externals} (o : ContainerEnvironment) (w : World)
    : ContainerEnvironment :=
  {| base_image := base_image o;
     registry_url := registry_url o;
     image_name := Some (uuid4 (rng w));
     image_tag := Some (uuid4 (S (rng w)));
     python_dependencies := python_dependencies o;
     env_vars := [];
     files := [] |}.

(** ** Staged files *)

(** The COPY directive of an entry, and where the entry is staged. *)
Definition copy_line (src dest : string) : string :=
  "COPY " +:+ os_path.basename src +:+ " " +:+ dest +:+ nl.

Definition staged_at (directory src : string) : string :=
  os_path.join directory (os_path.basename src).


(** What [filecmp.cmp] answers for [f1] and [f2] holding [s1] and [s2] in
    [w]: equal signatures make them the same, different sizes make them
    differ, and in between the cache speaks if it has an entry, the bytes
    if it has none and the files may be read. *)
Definition filecmp_answer `{Externals} (w : World) (f1 f2 : string)
    (s1 s2 : File) : Outcome bool :=
  if same_sig s1 s2 then Returns true
  else if negb (Nat.eqb (String.length (content s1))
                        (String.length (content s2)))
  then Returns false
  else match filecmp_cached w f1 f2 with
       | Some cached => Returns cached
       | None =>
           match filecmp_denied w f1 f2 with
           | Some path => Raises (PermissionError path)
           | None => Returns (String.eqb (content s1) (content s2))
           end
       end.

(** [filecmp.cmp] tells [f1] and [f2] apart in [w]: their signatures
    differ, and either their sizes differ, or the cache holds [False] for
    them, or the cache holds nothing for them, they may be read and their
    bytes differ. *)
Definition told_apart `{Externals} (w : World) (f1 f2 : string)
    (s1 s2 : File) : Prop :=
  same_sig s1 s2 = false
  /\ (String.length (content s1) <> String.length (content s2)
      \/ filecmp_cached w f1 f2 = Some false
      \/ (filecmp_cached w f1 f2 = None /\ filecmp_denied w f1 f2 = None
          /\ content s1 <> content s2)).

(** What [shutil.copy2] makes of staging [src], which holds [s], in [w]. *)
Definition staged_copy `{Externals} (directory src dest : string) (s : File)
    (w : World) : Outcome string * World :=
  let full := staged_at directory src in
  if String.eqb src full then (Raises (SameFileError src), w)
  else match copy2_denied w src full with
       | Some refusal =>
           (Raises (PermissionError (refused_path refusal)),
            if contents_written refusal
            then set_fs (fun m => <[full := {| mtime := clock w;
                                               content := content s |}]> m) w
            else w)
       | None => (Returns (copy_line src dest),
                  set_fs (fun m => <[full := s]> m) w)
       end.


(** ** Progress and build output *)

(** What [pull_image] and [push] print for a decoded stream: one line per
    record that carries progress data, in the order of the stream. *)
Definition progress_lines (records : list Progress) : list string :=
  map (fun line => py_str (status line) +:+ " " +:+ py_str (progress line))
      (List.filter (fun line => truthy (progress line)) records).

(** The outcome of draining a stream whose items were all handled. *)
Definition drained {A} (s : Stream A) : Outcome unit :=
  match failure s with
  | Some e => Raises e
  | None => Returns tt
  end.

(** ** The effect of staging *)

(** The COPY directives of the entries of [files], in their order. *)
Fixpoint copy_lines (entries : list (string * string)) : string :=
  match entries with
  | [] => ""
  | (src, dest) :: rest => copy_line src dest +:+ copy_lines rest
  end.

(** Between [w] and [w'] nothing but the file system has changed. *)
Definition only_fs (w w' : World) : Prop :=
  w' = set_fs (fun _ => fs w') w.

(** ** The generated build script *)

(** The install directives of [python_dependencies], the combined
    directive of [env_vars], and the script [create_dockerfile] writes for
    descriptor [o] when the access token of the process is [token]. *)
Definition pip_installs_text (dependencies : list string) : string :=
  String.concat ""
    (map (fun dependency => "RUN pip install " +:+ dependency +:+ nl)
         dependencies).

Definition env_vars_text (vars : list (string * string)) : string :=
  match vars with
  | [] => ""
  | _ => "ENV " +:+ str_join (" \ " +:+ nl +:+ spaces 20)
                            (map (fun kv => kv.1 +:+ "=" +:+ kv.2) vars)
  end.

Definition dockerfile_of `{Externals} (o : ContainerEnvironment)
    (token : option string) : string :=
  textwrap_dedent
    (dockerfile_text (base_image o) (pip_installs_text (python_dependencies o))
                     (copy_lines (files o)) (env_vars_text (env_vars o))
                     (py_str token)).

(** The local environment [create_dockerfile] persists for [flow] when it
    starts in world [w]: a generated key, and the flow encoded under it. *)
Definition embedded_environment `{Externals} (flow : Flow) (w : World)
    : LocalEnvironment :=
  let key := Fernet_generate_key (rng w) in
  {| encryption_key := key;
     serialized_flow :=
       Some (b64encode (Fernet_encrypt key (S (rng w))
                                       (cloudpickle_dumps flow))) |}.

(** ** The effect of a build *)

(** Between [w] and [w'] nothing but standard output has changed, and that
    only by lines added at its end. *)
Definition only_stdout (w w' : World) : Prop :=
  exists lines, w' = set_stdout (fun out => (out ++ lines)%list) w.

(** A text made of [n] newlines and nothing else. *)
Fixpoint newlines (n : nat) : string :=
  match n with
  | O => ""
  | S k => nl +:+ newlines k
  end.

(** The requests of a complete [build] on receiver [o] from world [w], in
    the order they are sent: the temporary directory is the third random
    draw of the call, after the two identifiers. *)
Definition build_requests `{Externals} (o : ContainerEnvironment)
    (push' : bool) (w : World) : list Call :=
  let full_name := os_path.join (registry_url o) (uuid4 (rng w)) in
  [ Pull (base_image o);
    Build (APIClient_build_request (mkdtemp (S (S (rng w)))) (built_image o w)
                                   (Some true) None None) ]
  ++ (if push' then [Push full_name (uuid4 (S (rng w)))] else [])
  ++ [ RemoveImage (built_image o w) true ].

(** A directory name that [os.path.join] extends with a slash: it is not
    empty and does not end in one. *)
Definition plain_directory (d : string) : Prop :=
  match String.rev d with
  | String c _ => Ascii.eqb c slash = false
  | EmptyString => False
  end.

(** Outside directory [d], the files of [w'] are those of [w]. *)
Definition outside (d : string) (w w' : World) : Prop :=
  forall p, below d p = false -> fs w' !! p = fs w !! p.

(** No random draw has been taken back between [w] and [w']. *)
Definition draws_on (w w' : World) : Prop := rng w <= rng w'.

(** The payload [build] makes for [flow] in world [w]. *)
Definition payload_of `{Externals} (self : LocalEnvironment) (flow : Flow)
    (w : World)
    : bytes :=
  b64encode (Fernet_encrypt (encryption_key self) (rng w)
                            (cloudpickle_dumps flow)).

(** The world [create_dockerfile] reaches from [w] once the files are
    staged and the file system is [staged]. *)
Definition synthesized `{Externals} (o : ContainerEnvironment) (flow : Flow)
    (directory : string) (w : World) (staged : gmap string File) : World :=
  let at_clock text := {| mtime := clock w; content := text |} in
  set_fs (fun _ =>
            <[os_path.join directory "Dockerfile"
              := at_clock (dockerfile_of o (access_token w))]>
            (<[os_path.join directory "flow_env.prefect"
               := at_clock (schema_dump_json (embedded_environment flow w))]>
             staged))
         (set_rng (fun n => S (S n)) w).

(** The requests sent since [w0] are [sent], and no instance has been
    allocated. *)
Definition requests_since (w0 : World) (sent : list Call) (w : World) : Prop :=
  calls w = (calls w0 ++ sent)%list /\ heap w = heap w0.

(** The command of the container that [run] creates. *)
Definition run_command : string :=
  "bash -c " +:+ dquote +:+ "prefect run $PREFECT_ENVIRONMENT_FILE" +:+ dquote.

(** Collaborators [X] with another answer of the daemon to a pull. *)
Definition with_daemon_pull (X : Externals)
    (pull : list Call -> string -> Stream Progress) : Externals :=
  {| Flow := @Flow X; State := @State X; Kwargs := @Kwargs X;
     Container := @Container X;
     cloudpickle_dumps := @cloudpickle_dumps X;
     cloudpickle_loads := @cloudpickle_loads X;
     Fernet_accepts := @Fernet_accepts X;
     Fernet_generate_key := @Fernet_generate_key X;
     Fernet_encrypt := @Fernet_encrypt X;
     Fernet_decrypt := @Fernet_decrypt X;
     b64encode := @b64encode X;
     b64decode := @b64decode X;
     filecmp_cached := @filecmp_cached X;
     filecmp_denied := @filecmp_denied X;
     copy2_denied := @copy2_denied X;
     uuid4 := @uuid4 X;
     mkdtemp := @mkdtemp X;
     utf8_decode := @utf8_decode X;
     json_loads_get_stream := @json_loads_get_stream X;
     textwrap_dedent := @textwrap_dedent X;
     schema_dump_json := @schema_dump_json X;
     flow_runner_run := @flow_runner_run X;
     daemon_pull := pull;
     daemon_build := @daemon_build X;
     daemon_push := @daemon_push X;
     daemon_remove_image := @daemon_remove_image X;
     daemon_create_container := @daemon_create_container X |}.

(** Collaborators [X] with another cipher. *)
Definition with_Fernet (X : Externals)
    (accepts : bytes -> bool) (encrypt : bytes -> nat -> bytes -> bytes)
    (decrypt : bytes -> bytes -> option bytes) : Externals :=
  {| Flow := @Flow X; State := @State X; Kwargs := @Kwargs X;
     Container := @Container X;
     cloudpickle_dumps := @cloudpickle_dumps X;
     cloudpickle_loads := @cloudpickle_loads X;
     Fernet_accepts := accepts;
     Fernet_generate_key := @Fernet_generate_key X;
     Fernet_encrypt := encrypt;
     Fernet_decrypt := decrypt;
     b64encode := @b64encode X;
     b64decode := @b64decode X;
     filecmp_cached := @filecmp_cached X;
     filecmp_denied := @filecmp_denied X;
     copy2_denied := @copy2_denied X;
     uuid4 := @uuid4 X;
     mkdtemp := @mkdtemp X;
     utf8_decode := @utf8_decode X;
     json_loads_get_stream := @json_loads_get_stream X;
     textwrap_dedent := @textwrap_dedent X;
     schema_dump_json := @schema_dump_json X;
     flow_runner_run := @flow_runner_run X;
     daemon_pull := @daemon_pull X;
     daemon_build := @daemon_build X;
     daemon_push := @daemon_push X;
     daemon_remove_image := @daemon_remove_image X;
     daemon_create_container := @daemon_create_container X |}.

(** ** Keys as the cipher reads them

    [Fernet(key)] does not keep the key it is given: it keeps
    [base64.urlsafe_b64decode(key)], and insists on 32 bytes.  The decoder
    is the lenient one of [binascii]: symbols outside the alphabet are
    skipped, [-] and [+] both stand for 62 and [_] and [/] for 63, the bits
    of the last symbol that do not fill a byte are dropped, and nothing is
    read after the padding that completes a quad. *)
Module urlsafe.

Definition digit (c : Ascii.ascii) : option N :=
  let n := Ascii.N_of_ascii c in
  if (N.leb 65 n && N.leb n 90)%bool then Some (n - 65)%N
  else if (N.leb 97 n && N.leb n 122)%bool then Some (n - 71)%N
  else if (N.leb 48 n && N.leb n 57)%bool then Some (n + 4)%N
  else if (N.eqb n 45 || N.eqb n 43)%bool then Some 62%N
  else if (N.eqb n 95 || N.eqb n 47)%bool then Some 63%N
  else None.

Definition byte (n : N) : Ascii.ascii := Ascii.ascii_of_N (N.land n 255).

(** The padding sign [=]. *)
Definition BASE64_PAD : Ascii.ascii := Ascii.ascii_of_nat 61.

(** The loop of [binascii.a2b_base64]: [quad_pos] symbols of the current
    quad have been read, [leftchar] holds the bits of them not yet written
    out, and [pads] padding signs have been seen since the last symbol. *)
Fixpoint a2b_base64 (data : string) (quad_pos : nat) (leftchar : N)
    (pads : nat) : option bytes :=
  match data with
  | EmptyString =>
      match quad_pos with
      | 0 => Some EmptyString
      | _ => None
      end
  | String c rest =>
      if Ascii.eqb c BASE64_PAD
      then if Nat.leb 2 quad_pos
           then if Nat.leb 4 (quad_pos + S pads) then Some EmptyString
                else a2b_base64 rest quad_pos leftchar (S pads)
           else a2b_base64 rest quad_pos leftchar pads
      else match digit c with
           | None => a2b_base64 rest quad_pos leftchar pads
           | Some this_ch =>
               match quad_pos with
               | 0 => a2b_base64 rest 1 this_ch 0
               | 1 => String (byte (N.lor (N.shiftl leftchar 2)
                                          (N.shiftr this_ch 4)))
                        <$> a2b_base64 rest 2 (N.land this_ch 15) 0
               | 2 => String (byte (N.lor (N.shiftl leftchar 4)
                                          (N.shiftr this_ch 2)))
                        <$> a2b_base64 rest 3 (N.land this_ch 3) 0
               | _ => String (byte (N.lor (N.shiftl leftchar 6) this_ch))
                        <$> a2b_base64 rest 0 0%N 0
               end
           end
  end.

Definition urlsafe_b64decode (s : bytes) : option bytes :=
  a2b_base64 s 0 0%N 0.

End urlsafe.

(** A cipher that reads its keys as Fernet does, and otherwise works as the
    one of [Demo]: it prepends to the message the 32 bytes the key decodes
    to and, to decrypt, insists on finding them there. *)
Module Spelled.

Definition key_material (key : bytes) : option bytes :=
  urlsafe.urlsafe_b64decode key.

Definition accepts (key : bytes) : bool :=
  match key_material key with
  | Some raw => Nat.eqb (String.length raw) 32
  | None => false
  end.

Definition encrypt (key : bytes) (_ : nat) (message : bytes) : bytes :=
  default "" (key_material key) +:+ message.

Definition decrypt (key token : bytes) : option bytes :=
  Demo.strip_prefix (default "" (key_material key)) token.

Definition externals : Externals :=
  with_Fernet (Demo.externals true) accepts encrypt decrypt.

Fixpoint repeated (n : nat) (symbol rest : string) : string :=
  match n with
  | 0 => rest
  | S n' => symbol +:+ repeated n' symbol rest
  end.

(** Three keys: 32 zero bytes as [Fernet.generate_key] would spell them,
    the same bytes with another last symbol, and 32 other bytes. *)
Definition zeros : bytes := repeated 43 "A" "=".
Definition zeros_again : bytes := repeated 42 "A" "B=".
Definition others : bytes := repeated 43 "B" "=".

End Spelled.

(** [R] relates every world to the world a computation leaves. *)
Definition respects {A} (R : World -> World -> Prop) (m : M A) : Prop :=
  forall w, R w (m w).2.

(** * Reasoning about computations *)

Section HoareRules.

Context {A B : Type}.
Implicit Types (P : World -> Prop) (E : Exn -> World -> Prop).

Lemma hoare_ret P (a : A) (Q : A -> World -> Prop) E :
  (forall w, P w -> Q a w) -> hoare P (ret a) Q E.
Proof. intros HQ w Hw. simpl. auto. Qed.

Lemma hoare_raise P (e : Exn) (Q : A -> World -> Prop) E :
  (forall w, P w -> E e w) -> hoare P (raise e) Q E.
Proof. intros HE w Hw. simpl. auto. Qed.

Lemma hoare_lift P (o : Outcome A) (Q : A -> World -> Prop) E :
  (forall w, P w -> match o with Returns a => Q a w | Raises e => E e w end) ->
  hoare P (lift o) Q E.
Proof. intros Ho w Hw. unfold lift. specialize (Ho w Hw). by destruct o. Qed.

Lemma hoare_gets P (f : World -> A) (Q : A -> World -> Prop) E :
  (forall w, P w -> Q (f w) w) -> hoare P (gets f) Q E.
Proof. intros HQ w Hw. simpl. auto. Qed.

Lemma hoare_bind P (m : M A) (k : A -> M B) (R : A -> World -> Prop)
    (Q : B -> World -> Prop) E :
  hoare P m R E ->
  (forall a, hoare (R a) (k a) Q E) ->
  hoare P (m ≫= k) Q E.
Proof.
  intros Hm Hk w Hw. specialize (Hm w Hw).
  unfold mbind, M_bind, bind. destruct (m w) as [[a|e] w1]; [|done].
  by apply Hk.
Qed.

Lemma hoare_conseq P P' (m : M A) (Q Q' : A -> World -> Prop) E E' :
  hoare P' m Q' E' ->
  (forall w, P w -> P' w) ->
  (forall a w, Q' a w -> Q a w) ->
  (forall e w, E' e w -> E e w) ->
  hoare P m Q E.
Proof.
  intros Hm HP HQ HE w Hw. specialize (Hm w (HP w Hw)).
  destruct (m w) as [[a|e] w1]; auto.
Qed.

Lemma hoare_try_except P (body : M A) (handler : Exn -> M A)
    (Q : A -> World -> Prop) (R : Exn -> World -> Prop) E :
  hoare P body Q R ->
  (forall e, hoare (R e) (handler e) Q E) ->
  hoare P (try_except body handler) Q E.
Proof.
  intros Hb Hh w Hw. specialize (Hb w Hw). unfold try_except.
  destruct (body w) as [[a|e] w1]; [done|]. by apply Hh.
Qed.

End HoareRules.

Lemma hoare_modify P (f : World -> World) (Q : unit -> World -> Prop) E :
  (forall w, P w -> Q tt (f w)) -> hoare P (modify f) Q E.
Proof. intros HQ w Hw. simpl. auto. Qed.

Lemma hoare_seq {A B} P (m : M A) (k : M B) (R : World -> Prop)
    (Q : B -> World -> Prop) E :
  hoare P m (fun _ => R) E -> hoare R k Q E -> hoare P (m ;; k) Q E.
Proof. intros Hm Hk. eapply hoare_bind; [exact Hm|]. intros ?. exact Hk. Qed.

Lemma hoare_for_each {A} (I : World -> Prop) (xs : list A) (body : A -> M unit) E :
  (forall x, hoare I (body x) (fun _ => I) E) ->
  hoare I (for_each xs body) (fun _ => I) E.
Proof.
  intros Hbody. induction xs as [|x xs IH]; simpl.
  - by apply hoare_ret.
  - eapply hoare_seq; [apply Hbody | exact IH].
Qed.

Lemma hoare_for_stream {A} (I : World -> Prop) (s : Stream A)
    (body : A -> M unit) E :
  (forall x, hoare I (body x) (fun _ => I) E) ->
  (forall e w, failure s = Some e -> I w -> E e w) ->
  hoare I (for_stream s body) (fun _ => I) E.
Proof.
  intros Hbody Hfail. unfold for_stream.
  eapply hoare_seq; [by apply hoare_for_each|].
  destruct (failure s) as [e|].
  - apply hoare_raise. intros w Hw. by apply Hfail.
  - by apply hoare_ret.
Qed.

Lemma hoare_with_TemporaryDirectory `{Externals} {A} P (body : string -> M A)
    (P' : World -> Prop) (Q Q' : A -> World -> Prop) E E' :
  (forall tempdir, hoare P' (body tempdir) Q' E') ->
  (forall w, P w -> P' (set_rng S w)) ->
  (forall a f w, Q' a w -> Q a (set_fs f w)) ->
  (forall e f w, E' e w -> E e (set_fs f w)) ->
  hoare P (with_TemporaryDirectory body) Q E.
Proof.
  intros Hbody HP HQ HE w Hw. unfold with_TemporaryDirectory.
  specialize (Hbody (mkdtemp (rng w)) _ (HP w Hw)).
  destruct (body _ _) as [[a|e] w1]; auto.
Qed.

(** ** Invariants kept by a computation *)

Section KeepsRules.

Context {A B : Type} (I : World -> Prop).

Lemma keeps_ret (a : A) : keeps I (ret a).
Proof. by apply hoare_ret. Qed.

Lemma keeps_raise (e : Exn) : keeps I (raise e : M A).
Proof. by apply hoare_raise. Qed.

Lemma keeps_lift (o : Outcome A) : keeps I (lift o).
Proof. apply hoare_lift. intros w Hw. by destruct o. Qed.

Lemma keeps_gets (f : World -> A) : keeps I (gets f).
Proof. by apply hoare_gets. Qed.

Lemma keeps_bind (m : M A) (k : A -> M B) :
  keeps I m -> (forall a, keeps I (k a)) -> keeps I (m ≫= k).
Proof. intros Hm Hk. eapply hoare_bind; [exact Hm | exact Hk]. Qed.

Lemma keeps_try_except (body : M A) (handler : Exn -> M A) :
  keeps I body -> (forall e, keeps I (handler e)) ->
  keeps I (try_except body handler).
Proof. intros Hb Hh. eapply hoare_try_except; [exact Hb | exact Hh]. Qed.

Lemma keeps_for_each (xs : list A) (body : A -> M unit) :
  (forall x, keeps I (body x)) -> keeps I (for_each xs body).
Proof. intros Hb. by apply hoare_for_each. Qed.

Lemma keeps_for_stream (s : Stream A) (body : A -> M unit) :
  (forall x, keeps I (body x)) -> keeps I (for_stream s body).
Proof. intros Hb. by apply hoare_for_stream. Qed.

End KeepsRules.

(** Structural steps of a proof that a method keeps an invariant. *)
Ltac keeps_step :=
  lazymatch goal with
  | |- keeps _ (_ ≫= _) => apply keeps_bind; [| intros ?]
  | |- keeps _ (ret _) => apply keeps_ret
  | |- keeps _ (raise _) => apply keeps_raise
  | |- keeps _ (lift _) => apply keeps_lift
  | |- keeps _ (gets _) => apply keeps_gets
  | |- keeps _ (try_except _ _) => apply keeps_try_except; [| intros ?]
  | |- keeps _ (for_each _ _) => apply keeps_for_each; intros ?
  | |- keeps _ (for_stream _ _) => apply keeps_for_stream; intros ?
  | |- keeps _ (if ?b then _ else _) => destruct b
  | |- keeps _ (match ?x with _ => _ end) => destruct x
  end.

Section KeepsMethods.

Context `{Externals} (I : World -> Prop) (ok : Call -> Prop).
Hypothesis I_stable : stable I ok.

Lemma keeps_print line : keeps I (print line).
Proof. apply hoare_modify. intros w Hw. by apply (stable_stdout I ok). Qed.

Lemma keeps_logging_info msg : keeps I (logging_info msg).
Proof. apply hoare_modify. intros w Hw. by apply (stable_log I ok). Qed.

Lemma keeps_draw {A} (source : nat -> A) : keeps I (draw source).
Proof. intros w Hw. simpl. by apply (stable_rng I ok). Qed.

Lemma keeps_request {A} c (answer : list Call -> A) :
  ok c -> keeps I (request c answer).
Proof. intros Hc w Hw. simpl. by apply (stable_call I ok). Qed.

Lemma keeps_os_path_exists p : keeps I (os_path_exists p).
Proof. apply keeps_gets. Qed.

Lemma keeps_os_stat p : keeps I (os_stat p).
Proof. intros w Hw. unfold os_stat. by destruct (fs w !! p). Qed.

Lemma keeps_write_file path text : keeps I (write_file path text).
Proof. intros w Hw. simpl. by apply (stable_fs I ok). Qed.

Lemma keeps_filecmp_cmp f1 f2 : keeps I (filecmp_cmp f1 f2).
Proof.
  unfold filecmp_cmp.
  repeat first [apply keeps_os_stat | keeps_step].
Qed.

Lemma keeps_shutil_copy2 src dst : keeps I (shutil_copy2 src dst).
Proof.
  unfold shutil_copy2.
  repeat first [apply keeps_os_stat | apply keeps_write_file | keeps_step].
  apply hoare_modify. intros w Hw. by apply (stable_fs I ok).
Qed.

Lemma keeps_with_TemporaryDirectory {A} (body : string -> M A) :
  (forall tempdir, keeps I (body tempdir)) ->
  keeps I (with_TemporaryDirectory body).
Proof.
  intros Hbody.
  eapply hoare_with_TemporaryDirectory; [exact Hbody | ..]; intros.
  - by apply (stable_rng I ok).
  - by apply (stable_fs I ok).
  - by apply (stable_fs I ok).
Qed.

Lemma keeps_Fernet key : keeps I (Fernet key).
Proof. unfold Fernet. repeat keeps_step. Qed.

Lemma keeps_LocalEnvironment_init k p : keeps I (LocalEnvironment_init k p).
Proof.
  unfold LocalEnvironment_init.
  repeat first [apply keeps_draw | apply keeps_Fernet | keeps_step].
Qed.

Lemma keeps_serialize_flow_to_bytes self flow :
  keeps I (serialize_flow_to_bytes self flow).
Proof.
  unfold serialize_flow_to_bytes.
  repeat first [apply keeps_draw | apply keeps_Fernet | keeps_step].
Qed.

Lemma keeps_deserialize_flow_from_bytes self payload :
  keeps I (deserialize_flow_from_bytes self payload).
Proof.
  unfold deserialize_flow_from_bytes.
  repeat first [apply keeps_Fernet | keeps_step].
Qed.

Lemma keeps_LocalEnvironment_build self flow :
  keeps I (LocalEnvironment_build self flow).
Proof.
  unfold LocalEnvironment_build.
  repeat first [apply keeps_serialize_flow_to_bytes
               | apply keeps_LocalEnvironment_init | keeps_step].
Qed.

Lemma keeps_LocalEnvironment_to_file self path :
  keeps I (LocalEnvironment_to_file self path).
Proof. apply keeps_write_file. Qed.

Lemma keeps_LocalEnvironment_run self kw :
  (forall payload, ok (RunFlow payload)) ->
  keeps I (LocalEnvironment_run self kw).
Proof.
  intros Hok. unfold LocalEnvironment_run.
  repeat first [apply keeps_deserialize_flow_from_bytes | keeps_step].
  apply hoare_modify. intros w Hw. by apply (stable_call I ok).
Qed.

Lemma keeps_attrs self : keeps I (attrs self).
Proof. intros w Hw. unfold attrs. by destruct (heap w !! self). Qed.

Lemma keeps_stage_file directory src dest :
  keeps I (stage_file directory src dest).
Proof.
  unfold stage_file.
  repeat first [apply keeps_os_path_exists | apply keeps_filecmp_cmp
               | apply keeps_shutil_copy2 | keeps_step].
Qed.

Lemma keeps_stage_files directory entries :
  keeps I (stage_files directory entries).
Proof.
  induction entries as [|[src dest] rest IH]; simpl.
  - apply keeps_ret.
  - repeat first [apply keeps_stage_file | exact IH | keeps_step].
Qed.

Lemma keeps_create_dockerfile self flow directory :
  keeps I (create_dockerfile self flow directory).
Proof.
  unfold create_dockerfile. cbv zeta.
  repeat first [apply keeps_write_file | apply keeps_attrs
               | apply keeps_stage_files | apply keeps_LocalEnvironment_init
               | apply keeps_LocalEnvironment_build
               | apply keeps_LocalEnvironment_to_file | keeps_step].
Qed.

Lemma keeps__parse_generator_output generator :
  keeps I (_parse_generator_output generator).
Proof.
  unfold _parse_generator_output.
  repeat first [apply keeps_print | keeps_step].
Qed.

Lemma keeps_print_progress output : keeps I (print_progress output).
Proof.
  unfold print_progress. repeat first [apply keeps_print | keeps_step].
Qed.

Lemma keeps_pull_image self :
  (forall image, ok (Pull image)) -> keeps I (pull_image self).
Proof.
  intros Hok. unfold pull_image.
  repeat first [apply keeps_attrs | apply keeps_print_progress
               | apply keeps_request; apply Hok | keeps_step].
Qed.

Lemma keeps_push self name tag :
  ok (Push name tag) -> keeps I (push self name tag).
Proof.
  intros Hok. unfold push.
  repeat first [apply keeps_logging_info | apply keeps_print_progress
               | apply keeps_request; apply Hok | keeps_step].
Qed.

Lemma keeps_ContainerEnvironment_run self kw :
  (forall image command detach, ok (CreateContainer image command detach)) ->
  keeps I (ContainerEnvironment_run self kw).
Proof.
  intros Hok. unfold ContainerEnvironment_run.
  repeat first [apply keeps_attrs | apply keeps_request; apply Hok
               | keeps_step].
Qed.

(** The part of [build] that runs before the image is removed. *)
Hypothesis I_alloc : stable_alloc I.

Lemma keeps_alloc o : keeps I (alloc o).
Proof. intros w Hw. simpl. by apply I_alloc. Qed.

Lemma keeps_ContainerEnvironment_init b r d n t e f :
  keeps I (ContainerEnvironment_init b r d n t e f).
Proof.
  unfold ContainerEnvironment_init.
  repeat first [apply keeps_alloc | apply keeps_attrs | keeps_step].
Qed.

Lemma keeps_ContainerEnvironment_build self flow push' :
  (forall image, ok (Pull image)) ->
  (forall path tag,
      ok (Build (APIClient_build_request path tag (Some true) None None))) ->
  (push' = true -> forall name tag, ok (Push name tag)) ->
  (forall image, ok (RemoveImage image true)) ->
  keeps I (ContainerEnvironment_build self flow push').
Proof.
  intros Hpull Hbuild Hpush Hremove. unfold ContainerEnvironment_build.
  repeat first
    [ apply keeps_draw | apply keeps_with_TemporaryDirectory; intros ?
    | apply keeps_pull_image; apply Hpull | apply keeps_create_dockerfile
    | apply keeps_attrs | apply keeps_logging_info
    | apply keeps_request; first [apply Hbuild | apply Hremove]
    | apply keeps__parse_generator_output
    | apply keeps_push; by apply Hpush
    | apply keeps_ContainerEnvironment_init
    | keeps_step ].
Qed.

End KeepsMethods.

(** * The helpers on explicit inputs *)

Example basename_of_path : os_path.basename "/abs/src/foo.txt" = "foo.txt".
Proof. reflexivity. Qed.

Example basename_of_name : os_path.basename "foo.txt" = "foo.txt".
Proof. reflexivity. Qed.

Example basename_of_directory : os_path.basename "/abs/src/" = "".
Proof. reflexivity. Qed.

Example join_relative : os_path.join "myrepo" "image" = "myrepo/image".
Proof. reflexivity. Qed.

Example join_after_slash : os_path.join "/tmp/" "Dockerfile" = "/tmp/Dockerfile".
Proof. reflexivity. Qed.

Example join_absolute : os_path.join "/tmp/ctx" "/etc/passwd" = "/etc/passwd".
Proof. reflexivity. Qed.

Example split_lines_trailing :
  split_lines ("a" +:+ nl +:+ nl +:+ "b" +:+ nl) = ["a"; ""; "b"; ""].
Proof. reflexivity. Qed.

Example strip_nl_both_ends :
  strip_nl (nl +:+ nl +:+ "Step 1/9" +:+ nl +:+ "done" +:+ nl) =
  "Step 1/9" +:+ nl +:+ "done".
Proof. reflexivity. Qed.

Example str_join_two : str_join ", " ["rel/a"; "b"] = "rel/a, b".
Proof. reflexivity. Qed.

(** End-to-end scenario 3 of the specification: after context synthesis the
    build directory holds a copy of [foo.txt], the Dockerfile and the
    persisted local environment. *)
Example create_dockerfile_stages_files :
  let w :=
    {| fs := {["/abs/src/foo.txt" := {| mtime := 7; content := "data" |}]};
       heap := [{| base_image := "python:3.7"; registry_url := "myrepo";
                   image_name := None; image_tag := None;
                   python_dependencies := []; env_vars := [];
                   files := [("/abs/src/foo.txt", "/app/foo.txt")] |}];
       calls := []; stdout := []; log := []; rng := 0; clock := 1000;
       access_token := None |} in
  let w' := (@create_dockerfile (Demo.externals true) 0 "flow" "/tmp/ctx" w).2 in
  fs w' !! "/tmp/ctx/foo.txt" = Some {| mtime := 7; content := "data" |}
  /\ dom (fs w') = {[ "/abs/src/foo.txt"; "/tmp/ctx/foo.txt";
                       "/tmp/ctx/Dockerfile"; "/tmp/ctx/flow_env.prefect" ]}.
Proof. split; vm_compute; reflexivity. Qed.

(** * Construction *)

Section Construction.

Context `{Externals}.

(** What [LocalEnvironment.__init__] does with a key supplied by the
    caller. *)
Lemma LocalEnvironment_init_Some key payload w :
  LocalEnvironment_init (Some key) payload w =
  (if Fernet_accepts key
   then Returns {| encryption_key := key; serialized_flow := payload |}
   else Raises (ValueError "Invalid encryption key."), w).
Proof.
  unfold LocalEnvironment_init, try_except, Fernet, mbind, M_bind, bind.
  by destruct (Fernet_accepts key).
Qed.

Lemma filter_not_isabs_nil (paths : list string) :
  List.filter (fun p => negb (os_path.isabs p)) paths = [] <->
  forallb os_path.isabs paths = true.
Proof.
  induction paths as [|p paths IH]; simpl; [done|].
  destruct (os_path.isabs p); simpl; [exact IH|]. split; discriminate.
Qed.

(** What [ContainerEnvironment.__init__] does: the instance exists in
    either case, and the reference is returned only when every key of
    [files] is absolute. *)
Lemma ContainerEnvironment_init_eq b r d n t e f w :
  let o := {| base_image := b; registry_url := r; image_name := n;
              image_tag := t; python_dependencies := default [] d;
              env_vars := default [] e; files := default [] f |} in
  let not_absolute :=
    List.filter (fun p => negb (os_path.isabs p)) (map fst (files o)) in
  ContainerEnvironment_init b r d n t e f w =
  (match not_absolute with
   | [] => Returns (length (heap w))
   | _ :: _ =>
       Raises (ValueError
         ("Provided paths " +:+ str_join ", " not_absolute +:+
          " are not absolute file paths, please provide absolute paths only."))
   end, set_heap (fun h => (h ++ [o])%list) w).
Proof.
  intros o not_absolute.
  unfold ContainerEnvironment_init, alloc, attrs, mbind, M_bind, bind.
  cbn [heap set_heap].
  rewrite list_lookup_middle by done. fold o. fold not_absolute.
  by destruct not_absolute.
Qed.

End Construction.

(** C8.  Validation happens in the constructors.
    [LocalEnvironment(encryption_key=key, ...)] returns the descriptor when
    the cipher accepts [key] and raises the [ValueError] for an invalid key
    otherwise, leaving the world as it was.
    [ContainerEnvironment(..., files=f)] returns a reference to the new
    instance when every key of [f] is absolute and raises a [ValueError]
    otherwise; in both cases no request has been sent to the daemon and no
    file has been touched. *)
Theorem C8_validation_at_construction `{Externals}
    key payload b r d n t e f (w : World) :
  LocalEnvironment_init (Some key) payload w =
    (if Fernet_accepts key
     then Returns {| encryption_key := key; serialized_flow := payload |}
     else Raises (ValueError "Invalid encryption key."), w)
  /\ (if forallb os_path.isabs (map fst (default [] f))
      then (ContainerEnvironment_init b r d n t e f w).1
           = Returns (length (heap w))
      else exists msg, (ContainerEnvironment_init b r d n t e f w).1
                       = Raises (ValueError msg))
  /\ calls (ContainerEnvironment_init b r d n t e f w).2 = calls w
  /\ fs (ContainerEnvironment_init b r d n t e f w).2 = fs w.
Proof.
  split; [apply LocalEnvironment_init_Some|].
  rewrite ContainerEnvironment_init_eq. cbn [fst snd files].
  split; [|done].
  destruct (forallb _ _) eqn:Habs.
  - apply filter_not_isabs_nil in Habs. by rewrite Habs.
  - destruct (List.filter _ _) eqn:Hf; [|by eexists].
    apply filter_not_isabs_nil in Hf. congruence.
Qed.

(** The two constructors on the inputs of the specification's examples. *)
Example ContainerEnvironment_init_relative_path :
  (ContainerEnvironment_init
     "python:3.7" "myrepo" None None None None
     (Some [("/abs/src/foo.txt", "/app/foo.txt"); ("rel/bar.txt", "/app/bar.txt")])
     Demo.world0).1
  = Raises (ValueError "Provided paths rel/bar.txt are not absolute file paths, please provide absolute paths only.").
Proof. reflexivity. Qed.

Example LocalEnvironment_init_malformed_key :
  @LocalEnvironment_init (Demo.externals true) (Some "not a key") None Demo.world0
  = (Raises (ValueError "Invalid encryption key."), Demo.world0).
Proof. reflexivity. Qed.

(** * The encrypted payload codec *)

Section Codec.

Context `{Externals}.

(** What the module relies on from the three libraries it composes:
    decoding undoes encoding, unpickling undoes pickling, and the cipher
    decrypts under the key a token was made with. *)
Hypothesis b64_round_trip :
  forall b, b64decode (b64encode b) = Returns b.
Hypothesis pickle_round_trip :
  forall flow, cloudpickle_loads (cloudpickle_dumps flow) = Returns flow.
Hypothesis fernet_round_trip :
  forall k n m, Fernet_accepts k = true ->
                Fernet_decrypt k (Fernet_encrypt k n m) = Some m.
(** The cipher reads a key through the bytes it decodes to, and through
    nothing else. *)
Variable key_material : bytes -> option bytes.
Hypothesis fernet_reads_key_material :
  forall k1 k2,
    Fernet_accepts k1 = true -> Fernet_accepts k2 = true ->
    key_material k1 = key_material k2 ->
    forall token, Fernet_decrypt k2 token = Fernet_decrypt k1 token.

Lemma serialize_flow_to_bytes_eq self flow w :
  Fernet_accepts (encryption_key self) = true ->
  serialize_flow_to_bytes self flow w =
  (Returns (b64encode (Fernet_encrypt (encryption_key self) (rng w)
                                      (cloudpickle_dumps flow))),
   set_rng S w).
Proof.
  intros Hkey.
  unfold serialize_flow_to_bytes, Fernet, draw, mbind, M_bind, bind.
  by rewrite Hkey.
Qed.

Lemma deserialize_flow_from_bytes_eq self token w :
  Fernet_accepts (encryption_key self) = true ->
  deserialize_flow_from_bytes self (b64encode token) w =
  (match Fernet_decrypt (encryption_key self) token with
   | Some pickled => cloudpickle_loads pickled
   | None => Raises InvalidToken
   end, w).
Proof.
  intros Hkey.
  unfold deserialize_flow_from_bytes, Fernet, lift, mbind, M_bind, bind.
  rewrite b64_round_trip, Hkey. unfold ret, raise.
  destruct (Fernet_decrypt _ _) as [pickled|]; [|done].
  by destruct (cloudpickle_loads pickled).
Qed.

(** C5.  Round trip: on a descriptor whose key the cipher accepts,
    [serialize_flow_to_bytes] returns a payload, and
    [deserialize_flow_from_bytes] maps that payload back to the flow it
    was made from, in any world. *)
Theorem C5_codec_round_trip self flow w
    (Hkey : Fernet_accepts (encryption_key self) = true) :
  exists payload,
    serialize_flow_to_bytes self flow w = (Returns payload, set_rng S w)
    /\ forall w', deserialize_flow_from_bytes self payload w'
                  = (Returns flow, w').
Proof.
  eexists. split; [by apply serialize_flow_to_bytes_eq|].
  intros w'. rewrite deserialize_flow_from_bytes_eq by done.
  by rewrite fernet_round_trip, pickle_round_trip.
Qed.

(** C6, amended.  What one descriptor serializes, another descriptor with
    an accepted key deserializes as the cipher decides, the method adding no
    check of its own: if Fernet refuses the token under the other key, the
    method raises the cipher's [InvalidToken] before anything is unpickled
    and leaves the world as it is; if Fernet releases bytes, they are
    unpickled and the outcome is returned.  The two keys being different
    strings does not make Fernet refuse: when they decode to the same key
    bytes, the second descriptor gets the flow back. *)
Theorem C6_wrong_key_rejected_as_fernet_rejects self other flow w
    (Hkey1 : Fernet_accepts (encryption_key self) = true)
    (Hkey2 : Fernet_accepts (encryption_key other) = true) :
  let token := Fernet_encrypt (encryption_key self) (rng w)
                              (cloudpickle_dumps flow) in
  exists payload,
    serialize_flow_to_bytes self flow w = (Returns payload, set_rng S w)
    /\ (Fernet_decrypt (encryption_key other) token = None ->
        forall w', deserialize_flow_from_bytes other payload w'
                   = (Raises InvalidToken, w'))
    /\ (forall pickled,
          Fernet_decrypt (encryption_key other) token = Some pickled ->
          forall w', deserialize_flow_from_bytes other payload w'
                     = (cloudpickle_loads pickled, w'))
    /\ (key_material (encryption_key self)
          = key_material (encryption_key other) ->
        forall w', deserialize_flow_from_bytes other payload w'
                   = (Returns flow, w')).
Proof.
  intros token. eexists. split; [by apply serialize_flow_to_bytes_eq|].
  fold token. split; [|split].
  - intros Hrefused w'. rewrite deserialize_flow_from_bytes_eq by done.
    by rewrite Hrefused.
  - intros pickled Hreleased w'.
    rewrite deserialize_flow_from_bytes_eq by done.
    by rewrite Hreleased.
  - intros Hsame w'. rewrite deserialize_flow_from_bytes_eq by done.
    rewrite (fernet_reads_key_material (encryption_key self)) by done.
    subst token. by rewrite fernet_round_trip, pickle_round_trip.
Qed.

End Codec.

(** The demonstration cipher opens what it has sealed. *)
Lemma Demo_strip_prefix_app k m : Demo.strip_prefix k (k +:+ m) = Some m.
Proof.
  induction k as [|a k IH]; simpl; [done|].
  by rewrite Ascii.eqb_refl.
Qed.

Lemma C5_codec_round_trip_witness :
  exists payload,
    @serialize_flow_to_bytes (Demo.externals true)
      {| encryption_key := "key0"; serialized_flow := None |} "flow" Demo.world0
    = (Returns payload, set_rng S Demo.world0)
    /\ forall w', @deserialize_flow_from_bytes (Demo.externals true)
                    {| encryption_key := "key0"; serialized_flow := None |}
                    payload w'
                  = (Returns "flow", w').
Proof.
  apply (@C5_codec_round_trip (Demo.externals true)).
  - reflexivity.
  - reflexivity.
  - intros k n m _. apply Demo_strip_prefix_app.
  - reflexivity.
Defined.

(** The keys [Spelled.zeros] and [Spelled.zeros_again] are two spellings
    of the same 32 bytes. *)
Lemma Spelled_same_key_material :
  Spelled.key_material Spelled.zeros
  = Spelled.key_material Spelled.zeros_again.
Proof. vm_compute. reflexivity. Qed.

Lemma Spelled_reads_key_material k1 k2 :
  @Fernet_accepts Spelled.externals k1 = true ->
  @Fernet_accepts Spelled.externals k2 = true ->
  Spelled.key_material k1 = Spelled.key_material k2 ->
  forall token, @Fernet_decrypt Spelled.externals k2 token
                = @Fernet_decrypt Spelled.externals k1 token.
Proof.
  intros _ _ Hsame token.
  change (Spelled.decrypt k2 token = Spelled.decrypt k1 token).
  unfold Spelled.decrypt. by rewrite Hsame.
Qed.

Lemma Spelled_round_trip k n m :
  @Fernet_decrypt Spelled.externals k (@Fernet_encrypt Spelled.externals k n m)
  = Some m.
Proof. apply Demo_strip_prefix_app. Qed.

(** C6, as stated, fails.  [Fernet] takes a key as text and keeps the bytes
    that [base64.urlsafe_b64decode] makes of it, and that decoder drops the
    bits of the last symbol that fill no byte: the accepted keys
    [AAA...AA=] and [AAA...AB=] are distinct and both stand for 32 zero
    bytes.  What is encoded under the first is decoded under the second,
    and the flow comes back instead of an error. *)
Lemma C6_second_spelling_decodes :
  let X := Spelled.externals in
  let first := {| encryption_key := Spelled.zeros; serialized_flow := None |} in
  let second :=
    {| encryption_key := Spelled.zeros_again; serialized_flow := None |} in
  encryption_key first <> encryption_key second
  /\ @Fernet_accepts X (encryption_key first) = true
  /\ @Fernet_accepts X (encryption_key second) = true
  /\ exists payload,
       @serialize_flow_to_bytes X first "flow" Demo.world0
       = (Returns payload, set_rng S Demo.world0)
       /\ @deserialize_flow_from_bytes X second payload Demo.world0
          = (Returns "flow", Demo.world0).
Proof.
  intros X first second.
  split; [intros Heq; vm_compute in Heq; discriminate Heq|].
  split; [vm_compute; reflexivity|].
  split; [vm_compute; reflexivity|].
  eexists. split; vm_compute; reflexivity.
Qed.

Lemma C6_wrong_key_rejected_as_fernet_rejects_witness :
  let X := Spelled.externals in
  let first := {| encryption_key := Spelled.zeros; serialized_flow := None |} in
  let second :=
    {| encryption_key := Spelled.zeros_again; serialized_flow := None |} in
  let third := {| encryption_key := Spelled.others; serialized_flow := None |} in
  exists payload,
    @serialize_flow_to_bytes X first "flow" Demo.world0
    = (Returns payload, set_rng S Demo.world0)
    /\ (forall w', @deserialize_flow_from_bytes X third payload w'
                   = (Raises InvalidToken, w'))
    /\ (forall w', @deserialize_flow_from_bytes X second payload w'
                   = (Returns "flow", w')).
Proof.
  intros X first second third.
  destruct (@C6_wrong_key_rejected_as_fernet_rejects X
              ltac:(reflexivity) ltac:(reflexivity)
              ltac:(intros k n m _; apply Spelled_round_trip)
              Spelled.key_material Spelled_reads_key_material
              first third "flow" Demo.world0
              ltac:(vm_compute; reflexivity) ltac:(vm_compute; reflexivity))
    as (payload & Hser & Hrefused & _).
  destruct (@C6_wrong_key_rejected_as_fernet_rejects X
              ltac:(reflexivity) ltac:(reflexivity)
              ltac:(intros k n m _; apply Spelled_round_trip)
              Spelled.key_material Spelled_reads_key_material
              first second "flow" Demo.world0
              ltac:(vm_compute; reflexivity) ltac:(vm_compute; reflexivity))
    as (payload' & Hser' & _ & _ & Hsame).
  assert (payload' = payload) as -> by congruence.
  exists payload. split; [exact Hser|]. split.
  - apply Hrefused. vm_compute. reflexivity.
  - apply Hsame. vm_compute. reflexivity.
Defined.

(** * Running a descriptor *)

Section Run.

Context `{Externals}.

(** [LocalEnvironment.run] without a payload: the guard raises before
    anything is decoded or run. *)
Lemma LocalEnvironment_run_unbuilt self kw w :
  truthy (serialized_flow self) = false ->
  LocalEnvironment_run self kw w =
  (Raises (ValueError
             "No serialized flow found! Has this environment been built?"),
   w).
Proof.
  unfold LocalEnvironment_run.
  destruct (serialized_flow self) as [[|c rest]|]; simpl; done.
Qed.

(** [ContainerEnvironment.run] has no such guard.  Without an image name
    the path join fails on [None] before the daemon is contacted. *)
Lemma ContainerEnvironment_run_without_name self o kw w :
  heap w !! self = Some o ->
  image_name o = None ->
  ContainerEnvironment_run self kw w =
  (Raises (TypeError
     "join() argument must be str, bytes, or os.PathLike object, not 'NoneType'"),
   w).
Proof.
  intros Hself Hname.
  unfold ContainerEnvironment_run, attrs, lift, mbind, M_bind, bind.
  by rewrite Hself, Hname.
Qed.

(** With a name but no tag, a container is requested for the tag that
    [None] prints as. *)
Lemma ContainerEnvironment_run_without_tag self o name kw w :
  heap w !! self = Some o ->
  image_name o = Some name ->
  image_tag o = None ->
  let image := os_path.join (registry_url o) name +:+ ":None" in
  let command := "bash -c " +:+ dquote +:+
                 "prefect run $PREFECT_ENVIRONMENT_FILE" +:+ dquote in
  ContainerEnvironment_run self kw w =
  (daemon_create_container (calls w) image command true,
   set_calls (fun cs => (cs ++ [CreateContainer image command true])%list) w).
Proof.
  intros Hself Hname Htag image command.
  unfold ContainerEnvironment_run, attrs, lift, request, mbind, M_bind, bind.
  rewrite Hself, Hname, Htag. simpl. fold image. fold command.
  by destruct (daemon_create_container _ _ _ _).
Qed.

End Run.

(** C3.  [run] on the unbuilt Container-variant descriptor of scenario 2
    (no [image_name], no [image_tag]): no container is requested, but the
    exception is the [TypeError] of the path join and not the [ValueError]
    with which [LocalEnvironment.run] reports an unbuilt descriptor. *)
Theorem C3_container_run_unbuilt_raises_TypeError :
  @ContainerEnvironment_run (Demo.externals true) 0 None Demo.world1
  = (Raises (TypeError
       "join() argument must be str, bytes, or os.PathLike object, not 'NoneType'"),
     Demo.world1)
  /\ @LocalEnvironment_run (Demo.externals true)
       {| encryption_key := "key0"; serialized_flow := None |} None Demo.world1
     = (Raises (ValueError
          "No serialized flow found! Has this environment been built?"),
        Demo.world1).
Proof. split; reflexivity. Qed.

(** * The requests of a build *)

Lemma appended_refl P w : appended P w w.
Proof. exists []. by rewrite app_nil_r. Qed.

Lemma appended_stable P w0 : stable (appended P w0) P.
Proof.
  split; try (intros f w [cs [Hcs HP]]; by exists cs).
  intros c w Hc [cs [Hcs HP]]. exists (cs ++ [c])%list. split.
  - cbn [calls set_calls]. by rewrite Hcs, app_assoc.
  - apply Forall_app. split; [done|]. by constructor.
Qed.

Lemma appended_alloc P w0 : stable_alloc (appended P w0).
Proof. intros o w [cs [Hcs HP]]. by exists cs. Qed.

(** What an invariant kept by a computation says about its final world. *)
Lemma keeps_final {A} (I : World -> Prop) (m : M A) w :
  keeps I m -> I w -> I (m w).2.
Proof.
  intros Hm Hw. specialize (Hm w Hw). by destruct (m w) as [[a|e] w'].
Qed.

(** C4, as stated, fails: in scenario 2 the one image-build request of
    [build] does not disable the layer cache. *)
Lemma C4_cache_not_disabled :
  ~ appended cache_disabled Demo.world1
      (@ContainerEnvironment_build (Demo.externals true) 0 "flow" true
         Demo.world1).2.
Proof.
  intros [cs [Hcs Hall]]. vm_compute in Hcs. subst cs.
  apply Forall_cons in Hall as [_ Hall].
  apply Forall_cons in Hall as [Hbuild _].
  discriminate Hbuild.
Qed.

(** C4, amended.  Every image-build request that [build] sends asks for the
    intermediate containers to be removed ([forcerm]) and leaves build-time
    layer caching at the client's default, enabled. *)
Theorem C4_build_requests_forcerm_only `{Externals} self flow push' w :
  appended forcerm_with_cache w
    (ContainerEnvironment_build self flow push' w).2.
Proof.
  apply (keeps_final (appended forcerm_with_cache w)); [|apply appended_refl].
  apply (keeps_ContainerEnvironment_build _ forcerm_with_cache);
    [apply appended_stable | apply appended_alloc | done..].
Qed.

(** With [push=False], [build] sends no push request. *)
Lemma build_without_push_never_pushes `{Externals} self flow w :
  appended (fun c => is_Push c = false) w
    (ContainerEnvironment_build self flow false w).2.
Proof.
  apply (keeps_final (appended _ w)); [|apply appended_refl].
  apply (keeps_ContainerEnvironment_build _ (fun c => is_Push c = false));
    [apply appended_stable | apply appended_alloc | done..].
Qed.

(** C1.  [build(flow, push=False)] on the descriptor of scenario 2: nothing
    is pushed, and the image that was just built is removed from the daemon
    all the same. *)
Theorem C1_build_without_push_removes_image :
  calls (@ContainerEnvironment_build (Demo.externals true) 0 "flow" false
           Demo.world1).2
  = [Pull "python:3.7";
     Build {| br_path := "/tmp/tmp2"; br_tag := "myrepo/uuid-0:uuid-1";
              br_forcerm := true; br_nocache := false; br_rm := false |};
     RemoveImage "myrepo/uuid-0:uuid-1" true].
Proof. vm_compute. reflexivity. Qed.

(** * The descriptors before and after a build *)

Lemma same_heap_stable w0 : stable (same_heap w0) (fun _ => True).
Proof. by split. Qed.

Lemma points_to_stable self o : stable (points_to self o) (fun _ => True).
Proof. by split. Qed.

Lemma points_to_alloc self o : stable_alloc (points_to self o).
Proof.
  intros o' w Hw. unfold points_to in *. cbn [heap set_heap].
  by apply lookup_app_l_Some.
Qed.

(** C10.  [build] does not touch its receiver: whatever the outcome, the
    instance behind [self] has after the call the seven attributes it had
    before; an unbuilt receiver is still unbuilt and can be built again. *)
Theorem C10_build_leaves_receiver `{Externals} self o flow push' w :
  heap w !! self = Some o ->
  heap (ContainerEnvironment_build self flow push' w).2 !! self = Some o.
Proof.
  intros Hself.
  apply (keeps_final (points_to self o)); [|exact Hself].
  apply (keeps_ContainerEnvironment_build _ (fun _ => True));
    [apply points_to_stable | apply points_to_alloc | done..].
Qed.

Lemma C10_build_leaves_receiver_witness :
  heap (@ContainerEnvironment_build (Demo.externals true) 0 "flow" true
          Demo.world1).2 !! 0
  = Some Demo.unbuilt.
Proof.
  apply (@C10_build_leaves_receiver (Demo.externals true)). reflexivity.
Defined.

(** Weakening what is known after an exception. *)
Lemma keeps_hoare {A} (I : World -> Prop) (m : M A) E :
  keeps I m -> (forall e w, I w -> E e w) -> hoare I m (fun _ => I) E.
Proof. intros Hm HE. eapply hoare_conseq; [exact Hm | auto..]. Qed.

Lemma hoare_attrs self o (I : World -> Prop) E :
  (forall w, I w -> heap w !! self = Some o) ->
  hoare I (attrs self) (fun a w => a = o /\ I w) E.
Proof. intros HI w Hw. unfold attrs. by rewrite (HI w Hw). Qed.

Lemma hoare_pure {A} (phi : Prop) (P : World -> Prop) (m : M A) Q E :
  (phi -> hoare P m Q E) -> hoare (fun w => phi /\ P w) m Q E.
Proof. intros Hm w [Hphi Hw]. by apply Hm. Qed.

Section BuildResult.

Context `{Externals}.

Lemma removal_requested_stable image :
  stable (removal_requested image) (fun _ => True).
Proof.
  split; try done. intros c w _ Hw. unfold removal_requested in *.
  cbn [calls set_calls]. apply elem_of_app. by left.
Qed.

Lemma stable_and (I J : World -> Prop) ok :
  stable I ok -> stable J ok -> stable (fun w => I w /\ J w) ok.
Proof.
  intros HI HJ. split; intros; destruct_and!; split;
    first [ by apply (stable_fs _ ok) | by apply (stable_stdout _ ok)
          | by apply (stable_log _ ok) | by apply (stable_rng _ ok)
          | by apply (stable_call _ ok) ].
Qed.

Lemma ContainerEnvironment_build_spec self o flow push' w :
  heap w !! self = Some o ->
  hoare (fun w1 => w1 = w)
        (ContainerEnvironment_build self flow push')
        (fun r w' => r = length (heap w)
                     /\ heap w' = (heap w ++ [built_from o w])%list
                     /\ removal_requested (built_image o w) w')
        (fun _ _ => True).
Proof.
  intros Hself. unfold ContainerEnvironment_build.
  pose proof (same_heap_stable w) as Hst.
  assert (Hlook : forall w1, same_heap w w1 -> heap w1 !! self = Some o)
    by (intros w1 Hw1; by rewrite Hw1).
  eapply hoare_bind
    with (R := fun a w1 => a = uuid4 (rng w)
                           /\ rng w1 = S (rng w) /\ same_heap w w1).
  { intros w1 ->. by simpl. }
  intros name. apply hoare_pure. intros ->.
  eapply hoare_bind
    with (R := fun a w1 => a = uuid4 (S (rng w)) /\ same_heap w w1).
  { intros w1 [Hrng Hheap]. simpl. by rewrite Hrng. }
  intros tag. apply hoare_pure. intros ->.
  eapply hoare_with_TemporaryDirectory
    with (P' := same_heap w) (E' := fun _ _ => True)
         (Q' := fun r w' => r = length (heap w)
                            /\ heap w' = (heap w ++ [built_from o w])%list
                            /\ removal_requested (built_image o w) w');
    [|by unfold same_heap|done..].
  intros tempdir.
  eapply hoare_seq.
  { apply keeps_hoare; [by eapply keeps_pull_image | done]. }
  eapply hoare_seq.
  { apply keeps_hoare; [by eapply keeps_create_dockerfile | done]. }
  eapply hoare_bind; [by apply (hoare_attrs self o)|].
  intros o1. apply hoare_pure. intros ->.
  eapply hoare_seq.
  { apply keeps_hoare; [by eapply keeps_logging_info | done]. }
  eapply hoare_bind.
  { apply keeps_hoare; [by eapply keeps_request | done]. }
  intros output. eapply hoare_seq.
  { apply keeps_hoare; [by eapply keeps__parse_generator_output | done]. }
  eapply hoare_seq.
  { apply keeps_hoare; [|done].
    destruct push'; [by eapply keeps_push | apply keeps_ret]. }
  set (J := fun w1 => same_heap w w1 /\ removal_requested (built_image o w) w1).
  assert (HJ : stable J (fun _ => True))
    by (apply stable_and; [done | apply removal_requested_stable]).
  eapply hoare_bind with (R := fun _ => J).
  { intros w1 Hw1. simpl. split; [done|].
    unfold removal_requested, built_image. cbn [calls set_calls].
    apply elem_of_app. right. by apply list_elem_of_singleton. }
  intros removed. eapply hoare_seq.
  { apply keeps_hoare; [apply keeps_lift | done]. }
  eapply hoare_bind.
  { apply (hoare_attrs self o). intros w1 [Hw1 _]. by apply Hlook. }
  intros o2. apply hoare_pure. intros ->.
  intros w1 [Hw1 Hrem]. rewrite ContainerEnvironment_init_eq. simpl.
  by rewrite Hw1.
Qed.

(** However [push] is set, a [build] that returns has asked the daemon to
    remove the image it built. *)
Lemma build_returns_after_removal self o flow push' w r w' :
  heap w !! self = Some o ->
  ContainerEnvironment_build self flow push' w = (Returns r, w') ->
  removal_requested (built_image o w) w'.
Proof.
  intros Hself Hrun.
  pose proof (ContainerEnvironment_build_spec self o flow push' w Hself w eq_refl)
    as Hspec.
  rewrite Hrun in Hspec. by destruct Hspec as (_ & _ & ?).
Qed.

End BuildResult.

(** C9.  A successful [build] returns a reference to a new instance, other
    than the receiver, whose [base_image], [registry_url] and
    [python_dependencies] are the receiver's, whose [image_name] and
    [image_tag] are the two identifiers drawn from [uuid4] at the start of
    the call, and whose [env_vars] and [files] are empty. *)
Theorem C9_build_returns_new_descriptor `{Externals}
    self o flow push' w r w' :
  heap w !! self = Some o ->
  ContainerEnvironment_build self flow push' w = (Returns r, w') ->
  r <> self
  /\ heap w' !! r =
     Some {| base_image := base_image o;
             registry_url := registry_url o;
             image_name := Some (uuid4 (rng w));
             image_tag := Some (uuid4 (S (rng w)));
             python_dependencies := python_dependencies o;
             env_vars := [];
             files := [] |}.
Proof.
  intros Hself Hrun.
  pose proof (ContainerEnvironment_build_spec self o flow push' w Hself w eq_refl)
    as Hspec.
  rewrite Hrun in Hspec. destruct Hspec as (-> & Hheap & _). split.
  - apply lookup_lt_Some in Hself. lia.
  - rewrite Hheap. by apply list_lookup_middle.
Qed.

Lemma C9_build_returns_new_descriptor_witness :
  1 <> 0
  /\ heap (@ContainerEnvironment_build (Demo.externals true) 0 "flow" false
             Demo.world1).2 !! 1 =
     Some {| base_image := "python:3.7";
             registry_url := "myrepo";
             image_name := Some "uuid-0";
             image_tag := Some "uuid-1";
             python_dependencies := ["requests"];
             env_vars := [];
             files := [] |}.
Proof.
  apply (@C9_build_returns_new_descriptor (Demo.externals true)
           0 Demo.unbuilt "flow" false Demo.world1 1
           (@ContainerEnvironment_build (Demo.externals true) 0 "flow" false
              Demo.world1).2).
  - reflexivity.
  - vm_compute. reflexivity.
Defined.

(** * Removal of the local image *)

(** C2, as stated, fails: in scenario 2, with a daemon that serves the
    pull, the build and the push but refuses to remove the image, [build]
    raises the daemon's error and returns nothing. *)
Lemma C2_remove_failure_not_swallowed :
  (@ContainerEnvironment_build (Demo.externals false) 0 "flow" true
     Demo.world1).1
  = Raises (ExternalError "docker" "image is being used")
  /\ calls (@ContainerEnvironment_build (Demo.externals false) 0 "flow" true
              Demo.world1).2
     = [Pull "python:3.7";
        Build {| br_path := "/tmp/tmp2"; br_tag := "myrepo/uuid-0:uuid-1";
                 br_forcerm := true; br_nocache := false; br_rm := false |};
        Push "myrepo/uuid-0" "uuid-1";
        RemoveImage "myrepo/uuid-0:uuid-1" true].
Proof. split; vm_compute; reflexivity. Qed.

(** C2, amended.  A failure of the remove-image request is fatal to
    [build]: when the daemon refuses removals with [e], [build] never
    returns a descriptor; it raises [e], unless it failed earlier, before
    any removal was requested. *)
Theorem C2_remove_failure_is_fatal `{Externals} e self flow push' w :
  (forall served image force,
      daemon_remove_image served image force = Raises e) ->
  match ContainerEnvironment_build self flow push' w with
  | (Returns _, _) => False
  | (Raises e', w') => e' = e \/ appended not_removal w w'
  end.
Proof.
  intros Hrefuse.
  pose proof (appended_stable not_removal w) as Hst.
  set (I := appended not_removal w).
  set (E := fun (e' : Exn) (w' : World) => e' = e \/ I w').
  assert (HE : forall e' w', I w' -> E e' w') by (intros; by right).
  cut (hoare I (ContainerEnvironment_build self flow push')
             (fun _ _ => False) E).
  { intros Hb. apply (Hb w), appended_refl. }
  unfold ContainerEnvironment_build.
  eapply hoare_bind; [apply keeps_hoare; [by eapply keeps_draw | done]|].
  intros name.
  eapply hoare_bind; [apply keeps_hoare; [by eapply keeps_draw | done]|].
  intros tag.
  eapply hoare_with_TemporaryDirectory
    with (P' := I) (E' := E) (Q' := fun _ _ => False);
    [| intros; by apply (stable_rng I not_removal) | done |].
  2:{ intros e' f w' [->|Hw']; [by left | right].
      by apply (stable_fs I not_removal). }
  intros tempdir.
  eapply hoare_seq.
  { apply keeps_hoare; [by eapply keeps_pull_image | done]. }
  eapply hoare_seq.
  { apply keeps_hoare; [by eapply keeps_create_dockerfile | done]. }
  eapply hoare_bind; [apply keeps_hoare; [apply keeps_attrs | done]|].
  intros o1. eapply hoare_seq.
  { apply keeps_hoare; [by eapply keeps_logging_info | done]. }
  eapply hoare_bind.
  { apply keeps_hoare; [by eapply keeps_request | done]. }
  intros output. eapply hoare_seq.
  { apply keeps_hoare; [by eapply keeps__parse_generator_output | done]. }
  eapply hoare_seq.
  { apply keeps_hoare; [|done].
    destruct push'; [by eapply keeps_push | apply keeps_ret]. }
  intros w1 Hw1.
  unfold request, lift, mbind, M_bind, bind. rewrite Hrefuse. by left.
Qed.

Lemma C2_remove_failure_is_fatal_witness :
  match @ContainerEnvironment_build (Demo.externals false) 0 "flow" true
          Demo.world1 with
  | (Returns _, _) => False
  | (Raises e', w') =>
      e' = ExternalError "docker" "image is being used"
      \/ appended not_removal Demo.world1 w'
  end.
Proof.
  apply (@C2_remove_failure_is_fatal (Demo.externals false)).
  reflexivity.
Defined.

(** * Staging the auxiliary files *)

Section Staging.

Context `{Externals}.

Implicit Types (directory src dest : string) (w : World).


(** [filecmp.cmp] on two files that exist gives its answer and leaves the
    world as it is. *)
Lemma filecmp_cmp_eq f1 f2 s1 s2 w :
  fs w !! f1 = Some s1 -> fs w !! f2 = Some s2 ->
  filecmp_cmp f1 f2 w = (filecmp_answer w f1 f2 s1 s2, w).
Proof.
  intros H1 H2.
  unfold filecmp_cmp, filecmp_answer, os_stat, gets, mbind, M_bind, bind.
  rewrite H1, H2. destruct (same_sig s1 s2); [done|].
  destruct (negb _); [done|].
  destruct (filecmp_cached w f1 f2); [done|].
  by destruct (filecmp_denied w f1 f2).
Qed.

(** The answer is [False] exactly when the files are told apart. *)
Lemma filecmp_answer_false w f1 f2 s1 s2 :
  filecmp_answer w f1 f2 s1 s2 = Returns false <-> told_apart w f1 f2 s1 s2.
Proof.
  unfold filecmp_answer, told_apart.
  destruct (same_sig s1 s2).
  { split; [done|]. by intros [? _]. }
  destruct (Nat.eqb_spec (String.length (content s1))
                         (String.length (content s2))) as [Hlen|Hlen]; simpl.
  2:{ split; [|done]. intros _. split; [done|]. by left. }
  destruct (filecmp_cached w f1 f2) as [[|]|].
  - split; [done|]. intros [_ [?|[?|[? _]]]]; done.
  - split; [|done]. intros _. split; [done|]. right. by left.
  - destruct (filecmp_denied w f1 f2) as [path|].
    { split; [done|]. intros [_ [?|[?|(_ & ? & _)]]]; done. }
    destruct (String.eqb_spec (content s1) (content s2)) as [Heq|Hne].
    + split; [done|]. intros [_ [?|[?|(_ & _ & ?)]]]; done.
    + split; [|done]. intros _. split; [done|]. right. by right.
Qed.



(** The ways [stage_file] can go when the source exists. *)
Lemma stage_file_eq directory src dest s w :
  fs w !! src = Some s ->
  stage_file directory src dest w =
  let full := staged_at directory src in
  match fs w !! full with
  | Some d =>
      match filecmp_answer w src full s d with
      | Returns true => staged_copy directory src dest s w
      | Returns false =>
          (Raises (ValueError ("File " +:+ full +:+ " already exists in "
                               +:+ directory)), w)
      | Raises e => (Raises e, w)
      end
  | None => staged_copy directory src dest s w
  end.
Proof.
  intros Hsrc.
  unfold stage_file, staged_copy, staged_at, copy_line, os_path_exists.
  set (full := os_path.join directory (os_path.basename src)).
  unfold mbind, M_bind, bind, gets.
  destruct (fs w !! full) as [d|] eqn:Hfull.
  - rewrite (filecmp_cmp_eq src full s d) by done.
    unfold ret. cbn zeta.
    destruct (filecmp_answer w src full s d) as [[|]|e]; simpl; [|done..].
    unfold shutil_copy2. destruct (String.eqb src full); [done|].
    unfold os_stat, gets, mbind, M_bind, bind. rewrite Hsrc.
    destruct (copy2_denied w src full) as [[path [|]]|]; done.
  - unfold ret. simpl.
    unfold shutil_copy2. destruct (String.eqb src full); [done|].
    unfold os_stat, gets, mbind, M_bind, bind. rewrite Hsrc.
    destruct (copy2_denied w src full) as [[path [|]]|]; done.
Qed.

(** Without the source, [stage_file] fails, but not with a conflict, and
    leaves the world as it is. *)
Lemma stage_file_missing directory src dest w :
  fs w !! src = None ->
  exists e, stage_file directory src dest w = (Raises e, w)
            /\ is_ValueError e = false.
Proof.
  intros Hsrc. unfold stage_file, os_path_exists.
  set (full := os_path.join directory (os_path.basename src)).
  unfold mbind, M_bind, bind, gets.
  destruct (fs w !! full) as [d|] eqn:Hfull.
  - unfold filecmp_cmp, os_stat, mbind, M_bind, bind. rewrite Hsrc.
    by eexists.
  - unfold ret. simpl. unfold shutil_copy2.
    destruct (String.eqb src full); [by eexists|].
    unfold os_stat, mbind, M_bind, bind. rewrite Hsrc. by eexists.
Qed.



(** One round of the loop either raises and leaves the world alone, or
    puts a file at the staged path: the copy of the source when it returns,
    the contents of the source when the copy is refused half-way. *)
Lemma stage_file_cases directory src dest w :
  (exists e, stage_file directory src dest w = (Raises e, w))
  \/ (exists e f, stage_file directory src dest w
                  = (Raises e,
                     set_fs (fun m => <[staged_at directory src := f]> m) w))
  \/ (exists s, fs w !! src = Some s
                /\ stage_file directory src dest w
                   = (Returns (copy_line src dest),
                      set_fs (fun m => <[staged_at directory src := s]> m) w)).
Proof.
  destruct (fs w !! src) as [s|] eqn:Hsrc.
  2:{ left. destruct (stage_file_missing directory src dest w Hsrc)
        as [e [He _]]. by exists e. }
  rewrite (stage_file_eq directory src dest s) by done. cbn zeta.
  assert (Hcopy :
    (exists e, staged_copy directory src dest s w = (Raises e, w))
    \/ (exists e f, staged_copy directory src dest s w
                    = (Raises e,
                       set_fs (fun m => <[staged_at directory src := f]> m) w))
    \/ staged_copy directory src dest s w
       = (Returns (copy_line src dest),
          set_fs (fun m => <[staged_at directory src := s]> m) w)).
  { unfold staged_copy. destruct (String.eqb src _); [left; by eexists|].
    destruct (copy2_denied w src _) as [[path [|]]|]; cbn [contents_written].
    - right. left. by do 2 eexists.
    - left. by eexists.
    - right. by right. }
  assert (Hcases :
    (exists e, staged_copy directory src dest s w = (Raises e, w))
    \/ (exists e f, staged_copy directory src dest s w
                    = (Raises e,
                       set_fs (fun m => <[staged_at directory src := f]> m) w))
    \/ (exists s', Some s = Some s'
                   /\ staged_copy directory src dest s w
                      = (Returns (copy_line src dest),
                         set_fs (fun m => <[staged_at directory src := s']> m)
                                w))).
  { destruct Hcopy as [?|[?|?]]; [by left | right; by left |].
    right. right. by exists s. }
  destruct (fs w !! staged_at directory src) as [d|]; [|exact Hcases].
  destruct (filecmp_answer _ _ _ _ _) as [[|]|e];
    [exact Hcases | left; by eexists..].
Qed.

End Staging.




(** * Progress of a pull and of a push *)

Lemma set_stdout_app lines1 lines2 w :
  set_stdout (fun out => (out ++ lines2)%list)
             (set_stdout (fun out => (out ++ lines1)%list) w)
  = set_stdout (fun out => (out ++ (lines1 ++ lines2))%list) w.
Proof. unfold set_stdout. simpl. by rewrite app_assoc. Qed.

Lemma set_stdout_nil w : set_stdout (fun out => (out ++ [])%list) w = w.
Proof. destruct w. unfold set_stdout. simpl. by rewrite app_nil_r. Qed.

Lemma print_progress_items records w :
  for_each records
    (fun line : Progress =>
       if truthy (progress line)
       then print (py_str (status line) +:+ " " +:+ py_str (progress line))
       else ret tt) w
  = (Returns tt,
     set_stdout (fun out => (out ++ progress_lines records)%list) w).
Proof.
  revert w. induction records as [|line records IH]; intros w.
  - simpl. by rewrite set_stdout_nil.
  - cbn [for_each]. unfold mbind, M_bind, bind, progress_lines.
    cbn [List.filter]. destruct (truthy (progress line)).
    + cbn [print modify map]. rewrite IH, set_stdout_app. done.
    + cbn [ret]. by rewrite IH.
Qed.

Lemma print_progress_eq output w :
  print_progress output w
  = (drained output,
     set_stdout (fun out => (out ++ progress_lines (items output))%list) w).
Proof.
  unfold print_progress, for_stream, drained, mbind, M_bind, bind.
  rewrite print_progress_items. by destruct (failure output).
Qed.

Lemma pull_image_eq `{Externals} self o w :
  heap w !! self = Some o ->
  let output := daemon_pull (calls w) (base_image o) in
  pull_image self w
  = (drained output,
     set_stdout (fun out => (out ++ progress_lines (items output))%list)
       (set_calls (fun cs => (cs ++ [Pull (base_image o)])%list) w)).
Proof.
  intros Hself output.
  unfold pull_image, attrs, request, mbind, M_bind, bind.
  rewrite Hself. by rewrite print_progress_eq.
Qed.

Lemma push_eq `{Externals} self name tag w :
  let output := daemon_push (calls w) name tag in
  push self name tag w
  = (drained output,
     set_stdout (fun out => (out ++ progress_lines (items output))%list)
       (set_calls (fun cs => (cs ++ [Push name tag])%list)
          (set_log (fun l => (l ++ ["Pushing image to the registry..."])%list)
             w))).
Proof.
  intros output.
  unfold push, logging_info, modify, request, mbind, M_bind, bind.
  by rewrite print_progress_eq.
Qed.

(** X1.  [pull_image] sends one pull request, for the receiver's
    [base_image]; it prints the status and progress of every record of the
    answer that carries progress data, in order, and only once the records
    are exhausted does a failure of the stream surface. *)
Theorem pull_image_drains_stream `{Externals} self o w :
  heap w !! self = Some o ->
  let output := daemon_pull (calls w) (base_image o) in
  pull_image self w
  = (drained output,
     set_stdout (fun out => (out ++ progress_lines (items output))%list)
       (set_calls (fun cs => (cs ++ [Pull (base_image o)])%list) w)).
Proof.
  intros Hself output.
  unfold pull_image, attrs, request, mbind, M_bind, bind.
  rewrite Hself. unfold print_progress, for_stream, mbind, M_bind, bind.
  rewrite print_progress_items. subst output. unfold drained.
  by destruct (failure _).
Qed.

Lemma pull_image_drains_stream_witness :
  @pull_image (Demo.externals true) 0 Demo.world1
  = (Returns tt,
     set_stdout (fun out => (out ++ [])%list)
       (set_calls (fun cs => (cs ++ [Pull "python:3.7"])%list) Demo.world1)).
Proof.
  apply (@pull_image_drains_stream (Demo.externals true) 0 Demo.unbuilt).
  reflexivity.
Defined.

(** X2.  [push] logs that it starts, sends one push request for the name
    and tag it is given, and treats the answer as [pull_image] does. *)
Theorem push_drains_stream `{Externals} self name tag w :
  let output := daemon_push (calls w) name tag in
  push self name tag w
  = (drained output,
     set_stdout (fun out => (out ++ progress_lines (items output))%list)
       (set_calls (fun cs => (cs ++ [Push name tag])%list)
          (set_log (fun l => (l ++ ["Pushing image to the registry..."])%list)
             w))).
Proof.
  intros output.
  unfold push, logging_info, modify, request, mbind, M_bind, bind.
  unfold print_progress, for_stream, mbind, M_bind, bind.
  rewrite print_progress_items. subst output. unfold drained.
  by destruct (failure _).
Qed.

(** A stream of three records, the second without progress data, that
    breaks off after the third. *)
Example pull_image_interrupted :
  let X := Demo.externals true in
  let records :=
    [ {| status := Some "Downloading"; progress := Some "[=>  ] 1MB/9MB" |};
      {| status := Some "Waiting"; progress := None |};
      {| status := None; progress := Some "[==> ] 5MB/9MB" |} ] in
  let output := {| items := records;
                   failure := Some (ExternalError "docker" "connection reset") |} in
  print_progress output Demo.world0
  = (Raises (ExternalError "docker" "connection reset"),
     set_stdout (fun _ => ["Downloading [=>  ] 1MB/9MB"; "None [==> ] 5MB/9MB"])
                Demo.world0).
Proof. reflexivity. Qed.

(** * Building and running a local environment *)

Section LocalLifecycle.

Context `{Externals}.

Hypothesis b64_round_trip :
  forall b, b64decode (b64encode b) = Returns b.
Hypothesis pickle_round_trip :
  forall flow, cloudpickle_loads (cloudpickle_dumps flow) = Returns flow.
Hypothesis fernet_round_trip :
  forall k n m, Fernet_accepts k = true ->
                Fernet_decrypt k (Fernet_encrypt k n m) = Some m.
(** An encoded token is never the empty payload. *)
Hypothesis payload_not_empty :
  forall k n m, b64encode (Fernet_encrypt k n m) <> "".

Lemma LocalEnvironment_build_eq self flow w :
  Fernet_accepts (encryption_key self) = true ->
  LocalEnvironment_build self flow w
  = (Returns {| encryption_key := encryption_key self;
                serialized_flow := Some (payload_of self flow w) |},
     set_rng S w).
Proof.
  intros Hkey. unfold LocalEnvironment_build, mbind, M_bind, bind.
  rewrite serialize_flow_to_bytes_eq by done.
  by rewrite LocalEnvironment_init_Some, Hkey.
Qed.

(** A key the cipher rejects stops [build] at the cipher's constructor. *)
Lemma LocalEnvironment_build_bad_key self flow w :
  Fernet_accepts (encryption_key self) = false ->
  exists msg, LocalEnvironment_build self flow w = (Raises (ValueError msg), w).
Proof.
  intros Hkey.
  unfold LocalEnvironment_build, serialize_flow_to_bytes, Fernet,
    mbind, M_bind, bind.
  rewrite Hkey. by eexists.
Qed.

Lemma LocalEnvironment_run_eq self payload kw w :
  serialized_flow self = Some payload -> payload <> "" ->
  LocalEnvironment_run self kw w =
  match deserialize_flow_from_bytes self payload w with
  | (Returns flow, w1) =>
      (flow_runner_run flow kw,
       set_calls (fun cs => (cs ++ [RunFlow payload])%list) w1)
  | (Raises e, w1) => (Raises e, w1)
  end.
Proof.
  intros Hpayload Hne. unfold LocalEnvironment_run. rewrite Hpayload.
  destruct payload as [|c rest]; [done|].
  unfold mbind, M_bind, bind.
  destruct (deserialize_flow_from_bytes _ _ _) as [[flow|e] w1]; [|done].
  simpl. unfold lift. by destruct (flow_runner_run flow kw).
Qed.

(** X3.  Build, then run: on a descriptor whose key the cipher accepts,
    [build] returns a new descriptor with the same key and a payload, and
    [run] on that descriptor, in any world, hands the flow that was built to
    the flow runner exactly once and returns what the runner returns. *)
Theorem LocalEnvironment_build_then_run self flow kw w w2 :
  Fernet_accepts (encryption_key self) = true ->
  exists built,
    LocalEnvironment_build self flow w = (Returns built, set_rng S w)
    /\ encryption_key built = encryption_key self
    /\ serialized_flow built = Some (payload_of self flow w)
    /\ LocalEnvironment_run built kw w2
       = (flow_runner_run flow kw,
          set_calls (fun cs => (cs ++ [RunFlow (payload_of self flow w)])%list)
                    w2).
Proof.
  intros Hkey. eexists. split; [by apply LocalEnvironment_build_eq|].
  split; [done|]. split; [done|].
  rewrite (LocalEnvironment_run_eq _ (payload_of self flow w)) by
    (done || apply payload_not_empty).
  unfold payload_of. cbn [encryption_key].
  rewrite deserialize_flow_from_bytes_eq by done.
  by rewrite fernet_round_trip, pickle_round_trip.
Qed.

(** X4.  [run] fails closed on the cipher's verdict: on a descriptor whose
    key the cipher accepts and whose payload is the base64 encoding of a
    token that the cipher refuses under that key, [run] raises the cipher's
    [InvalidToken]; the flow runner is not called and the world is as it
    was. *)
Theorem LocalEnvironment_run_rejected_payload self token kw w :
  Fernet_accepts (encryption_key self) = true ->
  serialized_flow self = Some (b64encode token) ->
  b64encode token <> "" ->
  Fernet_decrypt (encryption_key self) token = None ->
  LocalEnvironment_run self kw w = (Raises InvalidToken, w).
Proof.
  intros Hkey Hpayload Hne Hrefused.
  rewrite (LocalEnvironment_run_eq _ (b64encode token)) by done.
  rewrite deserialize_flow_from_bytes_eq by done.
  by rewrite Hrefused.
Qed.

(** A payload that is not valid base64 makes [run] raise the decoder's
    error before the cipher or the flow runner is involved. *)
Lemma LocalEnvironment_run_undecodable self payload e kw w :
  serialized_flow self = Some payload -> payload <> "" ->
  b64decode payload = Raises e ->
  LocalEnvironment_run self kw w = (Raises e, w).
Proof.
  intros Hpayload Hne Hdec.
  rewrite (LocalEnvironment_run_eq _ payload) by done.
  unfold deserialize_flow_from_bytes, lift, mbind, M_bind, bind.
  by rewrite Hdec.
Qed.

End LocalLifecycle.

Lemma Demo_untag_tag b : Demo.untag ("b64:" +:+ b) = Returns b.
Proof. reflexivity. Qed.

Lemma LocalEnvironment_build_then_run_witness :
  let self := {| encryption_key := "key0"; serialized_flow := None |} in
  exists built,
    @LocalEnvironment_build (Demo.externals true) self "flow" Demo.world0
    = (Returns built, set_rng S Demo.world0)
    /\ encryption_key built = "key0"
    /\ serialized_flow built = Some "b64:key0pickle:flow"
    /\ @LocalEnvironment_run (Demo.externals true) built None Demo.world1
       = (Returns "Success(flow)",
          set_calls (fun cs => (cs ++ [RunFlow "b64:key0pickle:flow"])%list)
                    Demo.world1).
Proof.
  intros self.
  apply (@LocalEnvironment_build_then_run (Demo.externals true)
           Demo_untag_tag).
  - reflexivity.
  - intros k n m _. apply Demo_strip_prefix_app.
  - discriminate.
  - reflexivity.
Defined.

Lemma LocalEnvironment_run_rejected_payload_witness :
  @LocalEnvironment_run (Demo.externals true)
    {| encryption_key := "key1";
       serialized_flow := Some "b64:key0pickle:flow" |} None Demo.world1
  = (Raises InvalidToken, Demo.world1).
Proof.
  apply (@LocalEnvironment_run_rejected_payload (Demo.externals true)
           Demo_untag_tag
           {| encryption_key := "key1";
              serialized_flow := Some "b64:key0pickle:flow" |}
           "key0pickle:flow" None Demo.world1);
    [reflexivity | reflexivity | discriminate | reflexivity].
Defined.

Lemma LocalEnvironment_run_undecodable_witness :
  @LocalEnvironment_run (Demo.externals true)
    {| encryption_key := "key0"; serialized_flow := Some "garbage" |}
    None Demo.world1
  = (Raises (ExternalError "binascii" "Incorrect padding"), Demo.world1).
Proof.
  apply (@LocalEnvironment_run_undecodable (Demo.externals true) _ "garbage");
    [reflexivity | discriminate | reflexivity].
Defined.

(** * The staging loop *)

Lemma only_fs_refl w : only_fs w w.
Proof. by destruct w. Qed.

Lemma only_fs_set_fs f w w' : only_fs w w' -> only_fs w (set_fs f w').
Proof. unfold only_fs. intros ->. by destruct w. Qed.

(** Whatever its outcome, the loop changes the file system only, only at
    the staged paths of its entries, and removes no file. *)
Lemma stage_files_effect `{Externals} (directory : string) entries : forall w,
  let w' := (stage_files directory entries w).2 in
  only_fs w w'
  /\ (forall p, (forall src dest, (src, dest) ∈ entries ->
                                p <> staged_at directory src) ->
                fs w' !! p = fs w !! p)
  /\ (forall p, is_Some (fs w !! p) -> is_Some (fs w' !! p)).
Proof.
  induction entries as [|[src dest] rest IH]; intros w; cbn zeta.
  - simpl. split; [apply only_fs_refl|]. by split.
  - cbn [stage_files]. unfold mbind, M_bind, bind.
    destruct (stage_file_cases directory src dest w)
      as [[e ->]|[(e & f & ->)|(s & Hsrc & ->)]].
    + simpl. split; [apply only_fs_refl|]. by split.
    + cbn [snd]. split; [apply only_fs_set_fs, only_fs_refl|]. split.
      * intros p Hp. cbn [fs set_fs]. apply lookup_insert_ne. symmetry.
        apply (Hp src dest). by left.
      * intros p Hsome. cbn [fs set_fs]. rewrite lookup_insert.
        by case_decide.
    + specialize (IH (set_fs (fun m => <[staged_at directory src := s]> m) w)).
      cbn zeta in IH. destruct IH as (Honly & Hframe & Hdom).
      destruct (stage_files directory rest _) as [[more|e] w1]; unfold ret;
        cbn [snd] in *.
      all: split; [unfold only_fs in *; rewrite Honly; by destruct w|].
      all: split.
      all: try (intros p Hp; rewrite Hframe;
                [ cbn [fs set_fs]; apply lookup_insert_ne; symmetry;
                  apply (Hp src dest); by left
                | intros src' dest' Hin; apply (Hp src' dest'); by right ]).
      all: intros p Hsome; apply Hdom; cbn [fs set_fs];
           rewrite lookup_insert; by case_decide.
Qed.

(** The loop over [files], when it comes to its end: the directives it
    returns, and the files it has staged. *)
Lemma stage_files_text `{Externals} (directory : string) entries :
  forall text w w',
  stage_files directory entries w = (Returns text, w') ->
  text = copy_lines entries.
Proof.
  induction entries as [|[src dest] rest IH]; intros text w w' Hrun.
  - by injection Hrun as <- _.
  - cbn [stage_files] in Hrun. unfold mbind, M_bind, bind in Hrun.
    destruct (stage_file_cases directory src dest w)
      as [[e He]|[(e & f & He)|(s & Hsrc & He)]]; rewrite He in Hrun;
      [done..|].
    destruct (stage_files directory rest _) as [[more|e] w1] eqn:Hrest;
      [|done].
    injection Hrun as <- _. cbn [copy_lines]. f_equal. by eapply IH.
Qed.

Lemma stage_files_staged `{Externals} (directory : string) entries :
  forall text w w',
  stage_files directory entries w = (Returns text, w') ->
  forall src dest, (src, dest) ∈ entries ->
                   is_Some (fs w' !! staged_at directory src).
Proof.
  induction entries as [|[src dest] rest IH];
    intros text w w' Hrun src' dest' Hin.
  - by apply elem_of_nil in Hin.
  - cbn [stage_files] in Hrun. unfold mbind, M_bind, bind in Hrun.
    destruct (stage_file_cases directory src dest w)
      as [[e He]|[(e & f & He)|(s & Hsrc & He)]]; rewrite He in Hrun;
      [done..|].
    destruct (stage_files directory rest _) as [[more|e] w1] eqn:Hrest;
      [|done].
    injection Hrun as _ <-.
    apply elem_of_cons in Hin as [Heq|Hin].
    + injection Heq as -> ->.
      pose proof (stage_files_effect directory rest
                    (set_fs (fun m => <[staged_at directory src := s]> m) w))
        as (_ & _ & Hdom).
      rewrite Hrest in Hdom. apply Hdom. cbn [fs set_fs].
      by rewrite lookup_insert_eq.
    + by eapply IH.
Qed.

(** X5.  When the loop over [files] comes to its end, the directives it
    returns are the COPY lines of the entries in the order of [files], every
    entry has a file at its staged path, and nothing else has changed: not a
    file outside the staged paths, and nothing that is not a file. *)
Theorem stage_files_returns `{Externals} directory entries text w w' :
  stage_files directory entries w = (Returns text, w') ->
  text = copy_lines entries
  /\ (forall src dest, (src, dest) ∈ entries ->
                       is_Some (fs w' !! staged_at directory src))
  /\ (forall p, (forall src dest, (src, dest) ∈ entries ->
                                 p <> staged_at directory src) ->
                 fs w' !! p = fs w !! p)
  /\ only_fs w w'.
Proof.
  intros Hrun.
  pose proof (stage_files_effect directory entries w) as Heff.
  cbn zeta in Heff. rewrite Hrun in Heff. cbn [snd] in Heff.
  destruct Heff as (Honly & Hframe & _).
  split; [by eapply stage_files_text|].
  split; [by eapply stage_files_staged|].
  by split.
Qed.

Lemma stage_files_returns_witness :
  let entries := [("/a/foo.txt", "/app/one"); ("/b/foo.txt", "/app/two")] in
  let w' := (@stage_files (Demo.externals true)
               "/tmp/ctx" entries Demo.two_sources).2 in
  "COPY foo.txt /app/one" +:+ nl +:+ "COPY foo.txt /app/two" +:+ nl
  = copy_lines entries
  /\ (forall src dest, (src, dest) ∈ entries ->
                       is_Some (fs w' !! staged_at "/tmp/ctx" src))
  /\ (forall p, (forall src dest, (src, dest) ∈ entries ->
                                 p <> staged_at "/tmp/ctx" src) ->
                 fs w' !! p = fs Demo.two_sources !! p)
  /\ only_fs Demo.two_sources w'.
Proof.
  intros entries w'.
  apply (@stage_files_returns (Demo.externals true)
           "/tmp/ctx" entries _ Demo.two_sources w').
  vm_compute. reflexivity.
Defined.

(** X6.  Two entries of [files] whose sources share a base name cannot
    both be staged in a directory that holds no file of that name when
    [filecmp.cmp] tells the second source apart from the staged copy of the
    first (different signatures, and different sizes, or a cached [False],
    or no cached answer, readable files and different bytes): if the first
    copy is not refused, the first is staged and the second raises the
    conflict, whatever follows it in [files]. *)
Theorem stage_files_conflict `{Externals} directory a da b db rest fa fb w :
  os_path.basename a = os_path.basename b ->
  fs w !! a = Some fa ->
  fs w !! b = Some fb ->
  fs w !! staged_at directory a = None ->
  copy2_denied w a (staged_at directory a) = None ->
  told_apart (set_fs (fun m => <[staged_at directory a := fa]> m) w)
             b (staged_at directory a) fb fa ->
  stage_files directory ((a, da) :: (b, db) :: rest) w
  = (Raises (ValueError ("File " +:+ staged_at directory a +:+
                         " already exists in " +:+ directory)),
     set_fs (fun m => <[staged_at directory a := fa]> m) w).
Proof.
  intros Hbase Ha Hb Hfresh Hcopy Hapart.
  assert (Hstaged : staged_at directory b = staged_at directory a)
    by (unfold staged_at; by rewrite Hbase).
  assert (Hane : a <> staged_at directory a) by congruence.
  assert (Hbne : b <> staged_at directory a) by congruence.
  cbn [stage_files]. unfold mbind, M_bind, bind.
  rewrite (stage_file_eq directory a da fa) by done. cbn zeta.
  rewrite Hfresh. unfold staged_copy. rewrite Hcopy.
  destruct (String.eqb_spec a (staged_at directory a)); [done|].
  rewrite (stage_file_eq directory b db fb)
    by (cbn [fs set_fs]; by rewrite lookup_insert_ne).
  cbn zeta. rewrite Hstaged.
  assert (Hlook : fs (set_fs (fun m => <[staged_at directory a := fa]> m) w)
                  !! staged_at directory a = Some fa)
    by (cbn [fs set_fs]; by rewrite lookup_insert_eq).
  rewrite Hlook.
  apply filecmp_answer_false in Hapart. by rewrite Hapart.
Qed.

Lemma stage_files_conflict_witness :
  let w :=
    {| fs := <["/a/foo.txt" := {| mtime := 5; content := "aaa" |}]>
             (<["/b/foo.txt" := {| mtime := 6; content := "bbbb" |}]> ∅);
       heap := []; calls := []; stdout := []; log := []; rng := 0;
       clock := 1000; access_token := None |} in
  @stage_files (Demo.externals true) "/tmp/ctx"
    [("/a/foo.txt", "/app/one"); ("/b/foo.txt", "/app/two")] w
  = (Raises (ValueError
       ("File " +:+ staged_at "/tmp/ctx" "/a/foo.txt" +:+
        " already exists in " +:+ "/tmp/ctx")),
     set_fs (fun m => <[staged_at "/tmp/ctx" "/a/foo.txt"
                        := {| mtime := 5; content := "aaa" |}]> m) w).
Proof.
  intros w.
  apply (@stage_files_conflict (Demo.externals true)
           "/tmp/ctx" "/a/foo.txt" "/app/one"
           "/b/foo.txt" "/app/two" []
           {| mtime := 5; content := "aaa" |}
           {| mtime := 6; content := "bbbb" |} w);
    try (vm_compute; reflexivity).
  split; [vm_compute; reflexivity|]. left. simpl. lia.
Defined.

(** * Synthesis of the build context *)

Lemma bind_Returns_inv {A B} (m : M A) (k : A -> M B) w b w' :
  (m ≫= k) w = (Returns b, w') ->
  exists a w1, m w = (Returns a, w1) /\ k a w1 = (Returns b, w').
Proof.
  unfold mbind, M_bind, bind. destruct (m w) as [[a|e] w1]; [|done].
  intros Hk. by exists a, w1.
Qed.

Lemma bind_Returns {A B} (m : M A) (k : A -> M B) w a w1 :
  m w = (Returns a, w1) -> (m ≫= k) w = k a w1.
Proof. intros Hm. unfold mbind, M_bind, bind. by rewrite Hm. Qed.

Lemma bind_Raises {A B} (m : M A) (k : A -> M B) w e w1 :
  m w = (Raises e, w1) -> (m ≫= k) w = (Raises e, w1).
Proof. intros Hm. unfold mbind, M_bind, bind. by rewrite Hm. Qed.

Lemma append_inj_r (x a b : string) : x +:+ a = x +:+ b -> a = b.
Proof. induction x as [|c x IH]; simpl; [done|]. intros [= ?]. auto. Qed.

Lemma join_Dockerfile_ne_flow_env directory :
  os_path.join directory "Dockerfile"
  <> os_path.join directory "flow_env.prefect".
Proof.
  unfold os_path.join. cbn [os_path.isabs Ascii.eqb].
  destruct (String.rev directory) as [|c rest]; [done|].
  destruct (Ascii.eqb c slash); intros Heq;
    repeat (apply append_inj_r in Heq); done.
Qed.

Section BuildContext.

Context `{Externals}.

(** A run of [create_dockerfile] that returns, step by step. *)
Lemma create_dockerfile_returns_inv self o flow directory w w' :
  heap w !! self = Some o ->
  create_dockerfile self flow directory w = (Returns tt, w') ->
  exists w1,
    stage_files directory (files o)
      (set_fs (fun m => <[os_path.join directory "Dockerfile"
                          := {| mtime := clock w; content := "" |}]> m) w)
    = (Returns (copy_lines (files o)), w1)
    /\ Fernet_accepts (Fernet_generate_key (rng w)) = true
    /\ w' = synthesized o flow directory w (fs w1).
Proof.
  intros Hself Hrun. unfold create_dockerfile in Hrun. cbn zeta in Hrun.
  apply bind_Returns_inv in Hrun as ([] & w0 & Hopen & Hrun).
  injection Hopen as <-.
  apply bind_Returns_inv in Hrun as (o' & w0' & Hattrs & Hrun).
  unfold attrs in Hattrs. cbn [heap set_fs] in Hattrs.
  rewrite Hself in Hattrs. injection Hattrs as <- <-.
  apply bind_Returns_inv in Hrun as (text & w1 & Hstage & Hrun).
  pose proof (stage_files_text _ _ _ _ _ Hstage) as ->.
  pose proof (stage_files_effect directory (files o)
                (set_fs (fun m => <[os_path.join directory "Dockerfile"
                                    := {| mtime := clock w; content := "" |}]> m)
                        w)) as Heff.
  cbn zeta in Heff. rewrite Hstage in Heff. destruct Heff as (Honly & _).
  cbn [snd] in Honly.
  exists w1. split; [done|].
  apply bind_Returns_inv in Hrun as (fresh & w2 & Hinit & Hrun).
  unfold LocalEnvironment_init, draw, ret, mbind, M_bind, bind in Hinit.
  injection Hinit as <- <-.
  apply bind_Returns_inv in Hrun as (local & w3 & Hbuild & Hrun).
  destruct (Fernet_accepts (Fernet_generate_key (rng w1))) eqn:Hkey.
  2:{ unfold LocalEnvironment_build, serialize_flow_to_bytes, Fernet,
        mbind, M_bind, bind in Hbuild.
      cbn [encryption_key] in Hbuild. by rewrite Hkey in Hbuild. }
  unfold LocalEnvironment_build, mbind, M_bind, bind in Hbuild.
  rewrite serialize_flow_to_bytes_eq in Hbuild by done.
  rewrite LocalEnvironment_init_Some in Hbuild. cbn [encryption_key] in Hbuild.
  rewrite Hkey in Hbuild. injection Hbuild as <- <-.
  apply bind_Returns_inv in Hrun as ([] & w4 & Hfile & Hrun).
  injection Hfile as <-.
  apply bind_Returns_inv in Hrun as (token & w5 & Htoken & Hrun).
  injection Htoken as <- <-.
  injection Hrun as <-.
  unfold only_fs in Honly.
  assert (Hrng : rng w1 = rng w) by (rewrite Honly; done).
  assert (Hclock : clock w1 = clock w) by (rewrite Honly; done).
  assert (Htok : access_token w1 = access_token w) by (rewrite Honly; done).
  rewrite Hrng in Hkey. split; [done|].
  unfold synthesized, embedded_environment, dockerfile_of, set_fs, set_rng.
  cbn. rewrite Honly. cbn. done.
Qed.

End BuildContext.

(** X7.  Whatever its outcome, [create_dockerfile] sends nothing to the
    daemon and allocates no descriptor. *)
Theorem create_dockerfile_is_local `{Externals} self flow directory w :
  calls (create_dockerfile self flow directory w).2 = calls w
  /\ heap (create_dockerfile self flow directory w).2 = heap w.
Proof.
  apply (keeps_final (fun w1 => calls w1 = calls w /\ heap w1 = heap w));
    [|done].
  by apply (keeps_create_dockerfile _ (fun _ => False)).
Qed.

(** X8.  When [create_dockerfile] returns, the directory holds the build
    script, rendered from the receiver's [base_image], dependencies, [files]
    and [env_vars] and from the access token of the process; it holds the
    persisted local environment, which carries a freshly generated key and
    the flow encoded under that key; and it holds a file at the staged path
    of every entry of [files]. *)
Theorem create_dockerfile_returns `{Externals} self o flow directory w w' :
  heap w !! self = Some o ->
  create_dockerfile self flow directory w = (Returns tt, w') ->
  fs w' !! os_path.join directory "Dockerfile"
  = Some {| mtime := clock w; content := dockerfile_of o (access_token w) |}
  /\ fs w' !! os_path.join directory "flow_env.prefect"
     = Some {| mtime := clock w;
               content := schema_dump_json (embedded_environment flow w) |}
  /\ (forall src dest, (src, dest) ∈ files o ->
                       is_Some (fs w' !! staged_at directory src)).
Proof.
  intros Hself Hrun.
  destruct (create_dockerfile_returns_inv _ _ _ _ _ _ Hself Hrun)
    as (w1 & Hstage & _ & ->).
  unfold synthesized. cbn [fs set_fs set_rng].
  split; [by rewrite lookup_insert_eq|]. split.
  - rewrite lookup_insert_ne by apply join_Dockerfile_ne_flow_env.
    by rewrite lookup_insert_eq.
  - intros src dest Hin.
    pose proof (stage_files_staged _ _ _ _ _ Hstage src dest Hin) as Hstaged.
    rewrite !lookup_insert. by repeat case_decide.
Qed.

Lemma create_dockerfile_returns_witness :
  let X := Demo.externals true in
  let o := {| base_image := "python:3.7"; registry_url := "myrepo";
              image_name := None; image_tag := None;
              python_dependencies := ["requests"]; env_vars := [("A", "1")];
              files := [("/a/foo.txt", "/app/foo.txt")] |} in
  let w := {| fs := fs Demo.two_sources; heap := [o]; calls := [];
              stdout := []; log := []; rng := 0; clock := 1000;
              access_token := Some "token" |} in
  let w' := (@create_dockerfile X 0 "flow" "/tmp/ctx" w).2 in
  fs w' !! "/tmp/ctx/Dockerfile"
  = Some {| mtime := 1000; content := @dockerfile_of X o (Some "token") |}
  /\ fs w' !! "/tmp/ctx/flow_env.prefect"
     = Some {| mtime := 1000; content := "{key0}" |}
  /\ (forall src dest, (src, dest) ∈ files o ->
                       is_Some (fs w' !! staged_at "/tmp/ctx" src)).
Proof.
  intros X o w w'.
  apply (@create_dockerfile_returns X 0 o "flow" "/tmp/ctx" w w').
  - reflexivity.
  - vm_compute. reflexivity.
Defined.

Section EmbeddedEnvironment.

Context `{Externals}.
Context (schema_load_json : string -> Outcome LocalEnvironment).

Hypothesis b64_round_trip :
  forall b, b64decode (b64encode b) = Returns b.
Hypothesis pickle_round_trip :
  forall flow, cloudpickle_loads (cloudpickle_dumps flow) = Returns flow.
Hypothesis fernet_round_trip :
  forall k n m, Fernet_accepts k = true ->
                Fernet_decrypt k (Fernet_encrypt k n m) = Some m.
Hypothesis payload_not_empty :
  forall k n m, b64encode (Fernet_encrypt k n m) <> "".

(** X9.  What the container finds at start-up: provided the schema loads
    back the environment that was dumped, the environment file that
    [create_dockerfile] has written loads, with [from_file], to a local
    environment whose [run] hands the flow given to [create_dockerfile] to
    the flow runner and returns the runner's result. *)
Theorem embedded_environment_runs_flow self o flow directory kw w w' :
  schema_load_json (schema_dump_json (embedded_environment flow w))
  = Returns (embedded_environment flow w) ->
  heap w !! self = Some o ->
  create_dockerfile self flow directory w = (Returns tt, w') ->
  exists environment payload,
    from_file schema_load_json
              (os_path.join directory "flow_env.prefect") w'
    = (Returns environment, w')
    /\ serialized_flow environment = Some payload
    /\ LocalEnvironment_run environment kw w'
       = (flow_runner_run flow kw,
          set_calls (fun cs => (cs ++ [RunFlow payload])%list) w').
Proof.
  intros Hschema Hself Hrun.
  destruct (create_dockerfile_returns_inv _ _ _ _ _ _ Hself Hrun)
    as (w1 & _ & Hkey & ->).
  assert (Hfile : fs (synthesized o flow directory w (fs w1))
                    !! os_path.join directory "flow_env.prefect"
                  = Some {| mtime := clock w;
                            content := schema_dump_json
                                         (embedded_environment flow w) |}).
  { unfold synthesized. cbn [fs set_fs set_rng].
    rewrite lookup_insert_ne by apply join_Dockerfile_ne_flow_env.
    by rewrite lookup_insert_eq. }
  exists (embedded_environment flow w). eexists. split; [|split; [done|]].
  - unfold from_file, os_stat, lift, mbind, M_bind, bind. rewrite Hfile.
    cbn [content]. by rewrite Hschema.
  - erewrite LocalEnvironment_run_eq; [|done|apply payload_not_empty].
    cbn [embedded_environment encryption_key].
    rewrite deserialize_flow_from_bytes_eq by done.
    by rewrite fernet_round_trip, pickle_round_trip.
Qed.

(** [from_file] on a path that names no file raises [FileNotFoundError]. *)
Lemma from_file_missing path w :
  fs w !! path = None ->
  from_file schema_load_json path w = (Raises (FileNotFoundError path), w).
Proof.
  intros Hpath. unfold from_file, os_stat, mbind, M_bind, bind.
  by rewrite Hpath.
Qed.

End EmbeddedEnvironment.

Lemma embedded_environment_runs_flow_witness :
  let X := Demo.externals true in
  let load (text : string) : Outcome LocalEnvironment :=
    if String.eqb text "{key0}"
    then Returns (@embedded_environment X "flow" Demo.world1)
    else Raises (ExternalError "marshmallow" "invalid") in
  let w' := (@create_dockerfile X 0 "flow" "/tmp/ctx" Demo.world1).2 in
  exists environment payload,
    from_file load "/tmp/ctx/flow_env.prefect" w' = (Returns environment, w')
    /\ serialized_flow environment = Some payload
    /\ @LocalEnvironment_run X environment None w'
       = (Returns "Success(flow)",
          set_calls (fun cs => (cs ++ [RunFlow payload])%list) w').
Proof.
  intros X load w'.
  apply (@embedded_environment_runs_flow X load Demo_untag_tag
           ltac:(reflexivity)
           ltac:(intros k n m _; apply Demo_strip_prefix_app)
           ltac:(discriminate)
           0 Demo.unbuilt "flow" "/tmp/ctx" None Demo.world1 w').
  - reflexivity.
  - reflexivity.
  - vm_compute. reflexivity.
Defined.

(** * Relations respected by a computation *)

Section RespectsRules.

Context (R : World -> World -> Prop).
Hypothesis R_refl : forall w, R w w.
Hypothesis R_trans : forall w1 w2 w3, R w1 w2 -> R w2 w3 -> R w1 w3.

Lemma respects_ret {A} (a : A) : respects R (ret a).
Proof. intros w. apply R_refl. Qed.

Lemma respects_raise {A} (e : Exn) : respects R (raise e : M A).
Proof. intros w. apply R_refl. Qed.

Lemma respects_lift {A} (o : Outcome A) : respects R (lift o).
Proof. intros w. apply R_refl. Qed.

Lemma respects_gets {A} (f : World -> A) : respects R (gets f).
Proof. intros w. apply R_refl. Qed.

Lemma respects_bind {A B} (m : M A) (k : A -> M B) :
  respects R m -> (forall a, respects R (k a)) -> respects R (m ≫= k).
Proof.
  intros Hm Hk w. specialize (Hm w). unfold mbind, M_bind, bind.
  destruct (m w) as [[a|e] w1]; [|done].
  eapply R_trans; [exact Hm | apply Hk].
Qed.

Lemma respects_try_except {A} (body : M A) (handler : Exn -> M A) :
  respects R body -> (forall e, respects R (handler e)) ->
  respects R (try_except body handler).
Proof.
  intros Hb Hh w. specialize (Hb w). unfold try_except.
  destruct (body w) as [[a|e] w1]; [done|].
  eapply R_trans; [exact Hb | apply Hh].
Qed.

Lemma respects_for_each {A} (xs : list A) (body : A -> M unit) :
  (forall x, respects R (body x)) -> respects R (for_each xs body).
Proof.
  intros Hbody. induction xs as [|x xs IH]; simpl.
  - apply respects_ret.
  - apply respects_bind; [apply Hbody | intros ?; exact IH].
Qed.

Lemma respects_for_stream {A} (s : Stream A) (body : A -> M unit) :
  (forall x, respects R (body x)) -> respects R (for_stream s body).
Proof.
  intros Hbody. unfold for_stream.
  apply respects_bind; [by apply respects_for_each|]. intros ?.
  destruct (failure s); [apply respects_raise | apply respects_ret].
Qed.

End RespectsRules.

(** * The build log *)

Lemma only_stdout_refl w : only_stdout w w.
Proof. exists []. by rewrite set_stdout_nil. Qed.

Lemma only_stdout_trans w1 w2 w3 :
  only_stdout w1 w2 -> only_stdout w2 w3 -> only_stdout w1 w3.
Proof.
  intros [l1 ->] [l2 ->]. exists (l1 ++ l2)%list. apply set_stdout_app.
Qed.

(** X10.  [_parse_generator_output] only prints: whatever the log holds
    and whether or not it can be decoded and parsed, the call adds lines to
    standard output and changes nothing else. *)
Theorem _parse_generator_output_only_prints `{Externals} generator w :
  only_stdout w (_parse_generator_output generator w).2.
Proof.
  revert w. change (respects only_stdout (_parse_generator_output generator)).
  pose proof only_stdout_refl as Hrefl.
  pose proof only_stdout_trans as Htrans.
  unfold _parse_generator_output.
  apply respects_for_stream; [done..|]. intros item.
  apply respects_bind; [done.. | by apply respects_lift |]. intros text.
  apply respects_for_each; [done..|]. intros line.
  destruct line as [|c rest]; [by apply respects_ret|].
  apply respects_bind; [done.. | by apply respects_lift |]. intros output.
  destruct (_ && _); [|by apply respects_ret].
  intros w. by exists [strip_nl (py_str output)].
Qed.

Lemma split_lines_aux_newlines n :
  split_lines_aux "" (newlines n) = replicate (S n) "".
Proof.
  induction n as [|n IH]; [done|].
  change (newlines (S n)) with (String (Ascii.ascii_of_nat 10) (newlines n)).
  cbn [split_lines_aux]. rewrite Ascii.eqb_refl, IH. done.
Qed.

Lemma for_each_skipped {A} (xs : list A) (body : A -> M unit) w :
  Forall (fun x => forall w0, body x w0 = (Returns tt, w0)) xs ->
  for_each xs body w = (Returns tt, w).
Proof.
  intros Hskip. revert w.
  induction Hskip as [|x xs Hx _ IH]; intros w; [done|].
  cbn [for_each]. unfold mbind, M_bind, bind. by rewrite Hx.
Qed.

(** X11.  Blank chunks of the build log are skipped without being parsed:
    when every chunk decodes to newlines only, nothing is printed and the
    call returns, whatever the JSON parser would make of an empty line. *)
Theorem _parse_generator_output_blank_chunks `{Externals} chunks w :
  Forall (fun chunk => exists n, utf8_decode chunk = Returns (newlines n))
         chunks ->
  _parse_generator_output {| items := chunks; failure := None |} w
  = (Returns tt, w).
Proof.
  intros Hblank. unfold _parse_generator_output, for_stream.
  cbn [items failure]. unfold mbind at 1, M_bind at 1, bind at 1.
  rewrite for_each_skipped; [done|].
  eapply Forall_impl; [exact Hblank|]. intros chunk [n Hn] w0.
  unfold mbind at 1, M_bind at 1, bind at 1, lift. rewrite Hn.
  unfold split_lines. rewrite split_lines_aux_newlines.
  apply for_each_skipped, Forall_replicate. done.
Qed.

Lemma _parse_generator_output_blank_chunks_witness :
  @_parse_generator_output (Demo.externals true)
    {| items := [nl +:+ nl; ""]; failure := None |} Demo.world0
  = (Returns tt, Demo.world0).
Proof.
  apply (@_parse_generator_output_blank_chunks (Demo.externals true)).
  repeat constructor.
  - by exists 2.
  - by exists 0.
Defined.

(** * The course of a build *)

Lemma hoare_with_TemporaryDirectory_at `{Externals} {A} (body : string -> M A)
    w0 (Q Q' : A -> World -> Prop) E E' :
  hoare (fun w1 => w1 = set_rng S w0) (body (mkdtemp (rng w0))) Q' E' ->
  (forall a f w, Q' a w -> Q a (set_fs f w)) ->
  (forall e f w, E' e w -> E e (set_fs f w)) ->
  hoare (fun w1 => w1 = w0) (with_TemporaryDirectory body) Q E.
Proof.
  intros Hbody HQ HE w ->. unfold with_TemporaryDirectory.
  specialize (Hbody _ eq_refl).
  destruct (body _ _) as [[a|e] w1]; auto.
Qed.

Lemma requests_since_stable w0 sent :
  stable (requests_since w0 sent) (fun _ => False).
Proof. by split. Qed.

Lemma requests_since_request {A} w0 sent c (answer : list Call -> A) E :
  hoare (requests_since w0 sent) (request c answer)
        (fun _ => requests_since w0 (sent ++ [c])) E.
Proof.
  intros w [Hcalls Hheap]. simpl. split; [|done].
  cbn [calls set_calls]. by rewrite Hcalls, app_assoc.
Qed.

Section BuildCourse.

Context `{Externals}.

Lemma ContainerEnvironment_build_course self o flow push' w :
  heap w !! self = Some o ->
  hoare (fun w1 => w1 = w)
        (ContainerEnvironment_build self flow push')
        (fun _ w' => calls w' = (calls w ++ build_requests o push' w)%list)
        (fun _ w' => heap w' = heap w
                     /\ exists sent, calls w' = (calls w ++ sent)%list
                                     /\ sent `prefix_of` build_requests o push' w).
Proof.
  intros Hself. unfold ContainerEnvironment_build.
  set (full := build_requests o push' w).
  set (E := fun (_ : Exn) (w' : World) =>
              heap w' = heap w
              /\ exists sent, calls w' = (calls w ++ sent)%list
                              /\ sent `prefix_of` full).
  assert (HE : forall sent, sent `prefix_of` full ->
                 forall e w', requests_since w sent w' -> E e w').
  { intros sent Hpre e w' [Hcalls Hheap]. split; [done|]. by exists sent. }
  assert (Hlook : forall sent w1, requests_since w sent w1 ->
                                  heap w1 !! self = Some o).
  { intros sent w1 [_ Hheap]. by rewrite Hheap. }
  eapply hoare_bind with (R := fun a w1 => a = uuid4 (rng w) /\ w1 = set_rng S w).
  { by intros w1 ->. }
  intros name. apply hoare_pure. intros ->.
  eapply hoare_bind
    with (R := fun a w1 => a = uuid4 (S (rng w))
                           /\ w1 = set_rng S (set_rng S w)).
  { by intros w1 ->. }
  intros tag. apply hoare_pure. intros ->.
  eapply hoare_with_TemporaryDirectory_at
    with (E' := E)
         (Q' := fun _ w' => calls w' = (calls w ++ full)%list); [|done|].
  2:{ intros e f w' Hw'. exact Hw'. }
  cbn [rng set_rng].
  set (tempdir := mkdtemp (S (S (rng w)))).
  set (full_name := os_path.join (registry_url o) (uuid4 (rng w))).
  set (pulled := [Pull (base_image o)]).
  set (built := (pulled ++ [Build (APIClient_build_request tempdir
                     (full_name +:+ ":" +:+ uuid4 (S (rng w)))
                     (Some true) None None)])%list).
  set (pushed := (built ++ (if push' then [Push full_name (uuid4 (S (rng w)))]
                            else []))%list).
  assert (Hfull : full = (pushed ++ [RemoveImage (full_name +:+ ":" +:+
                                        uuid4 (S (rng w))) true])%list).
  { unfold full, build_requests, pushed, built, pulled, built_image.
    fold full_name tempdir. by rewrite <- !app_assoc. }
  assert (Hpre_pulled : pulled `prefix_of` full).
  { rewrite Hfull. unfold pushed, built. rewrite <- !app_assoc.
    by apply prefix_app_r. }
  assert (Hpre_built : built `prefix_of` full).
  { rewrite Hfull. unfold pushed. rewrite <- !app_assoc.
    by apply prefix_app_r. }
  assert (Hpre_pushed : pushed `prefix_of` full).
  { rewrite Hfull. by apply prefix_app_r. }
  eapply hoare_conseq
    with (P' := requests_since w []) (E' := E)
         (Q' := fun _ w' => calls w' = (calls w ++ full)%list);
    [| intros w1 ->; split; [by rewrite app_nil_r | done] | done..].
  eapply hoare_seq with (R := requests_since w pulled).
  { intros w1 Hw1. pose proof (Hlook _ _ Hw1) as Hself1.
    rewrite (pull_image_eq self o) by done. cbn zeta.
    destruct Hw1 as [Hcalls Hheap].
    assert (Hnow : requests_since w pulled
              (set_stdout
                 (fun out => (out ++ progress_lines
                    (items (daemon_pull (calls w1) (base_image o))))%list)
                 (set_calls (fun cs => (cs ++ [Pull (base_image o)])%list) w1))).
    { split; [|done]. cbn [calls set_calls set_stdout].
      by rewrite Hcalls, app_nil_r. }
    destruct (drained _); [done|]. by apply (HE pulled). }
  eapply hoare_seq.
  { apply keeps_hoare; [|by apply HE].
    eapply keeps_create_dockerfile, requests_since_stable. }
  eapply hoare_bind; [apply (hoare_attrs self o), (Hlook pulled)|].
  intros o1. apply hoare_pure. intros ->.
  eapply hoare_seq.
  { apply keeps_hoare; [|by apply HE].
    eapply keeps_logging_info, requests_since_stable. }
  eapply hoare_bind; [apply requests_since_request|].
  intros output. fold full_name. fold built.
  eapply hoare_seq.
  { apply keeps_hoare; [|by apply HE].
    eapply keeps__parse_generator_output, requests_since_stable. }
  eapply hoare_seq with (R := requests_since w pushed).
  { unfold pushed. destruct push'.
    - intros w1 [Hcalls Hheap]. rewrite push_eq. cbn zeta.
      assert (Hnow : requests_since w
                (built ++ [Push full_name (uuid4 (S (rng w)))])
                (set_stdout
                   (fun out => (out ++ progress_lines
                      (items (daemon_push (calls w1) full_name
                                          (uuid4 (S (rng w))))))%list)
                   (set_calls
                      (fun cs => (cs ++ [Push full_name (uuid4 (S (rng w)))])%list)
                      (set_log
                         (fun l => (l ++ ["Pushing image to the registry..."])%list)
                         w1)))).
      { split; [|done]. cbn [calls set_calls set_stdout set_log].
        by rewrite Hcalls, app_assoc. }
      destruct (drained _); [done|]. by apply (HE _ Hpre_pushed).
    - rewrite app_nil_r. by apply hoare_ret. }
  eapply hoare_bind; [apply requests_since_request|].
  intros removed. rewrite <- Hfull.
  eapply hoare_seq.
  { apply keeps_hoare; [apply keeps_lift | by apply HE]. }
  eapply hoare_bind; [apply (hoare_attrs self o), (Hlook full)|].
  intros o2. apply hoare_pure. intros ->.
  intros w1 [Hcalls _]. rewrite ContainerEnvironment_init_eq. simpl.
  exact Hcalls.
Qed.

End BuildCourse.

(** X12.  The requests of a [build] go out in one fixed order: pull of the
    base image, build of the temporary directory under the tag
    [registry_url/image_name:image_tag], push of that name and tag when
    [push] is set, removal of the image.  A [build] that returns has sent
    them all; a [build] that raises has sent a prefix of them. *)
Theorem build_requests_in_order `{Externals} self o flow push' w :
  heap w !! self = Some o ->
  exists sent,
    calls (ContainerEnvironment_build self flow push' w).2
    = (calls w ++ sent)%list
    /\ sent `prefix_of` build_requests o push' w
    /\ (forall r, (ContainerEnvironment_build self flow push' w).1 = Returns r ->
                  sent = build_requests o push' w).
Proof.
  intros Hself.
  pose proof (ContainerEnvironment_build_course self o flow push' w Hself
                w eq_refl) as Hcourse.
  destruct (ContainerEnvironment_build self flow push' w) as [[r|e] w'];
    cbn [fst snd].
  - exists (build_requests o push' w). by repeat split.
  - destruct Hcourse as (_ & sent & Hsent & Hpre).
    exists sent. by repeat split.
Qed.

Lemma build_requests_in_order_witness :
  exists sent,
    calls (@ContainerEnvironment_build (Demo.externals true) 0 "flow" true
             Demo.world1).2
    = (calls Demo.world1 ++ sent)%list
    /\ sent `prefix_of` @build_requests (Demo.externals true) Demo.unbuilt true
                          Demo.world1
    /\ (forall r,
          (@ContainerEnvironment_build (Demo.externals true) 0 "flow" true
             Demo.world1).1 = Returns r ->
          sent = @build_requests (Demo.externals true) Demo.unbuilt true
                   Demo.world1).
Proof.
  apply (@build_requests_in_order (Demo.externals true)). reflexivity.
Defined.

(** X13.  A [build] that raises has allocated no descriptor. *)
Theorem failed_build_allocates_nothing `{Externals} self o flow push' w e :
  heap w !! self = Some o ->
  (ContainerEnvironment_build self flow push' w).1 = Raises e ->
  heap (ContainerEnvironment_build self flow push' w).2 = heap w.
Proof.
  intros Hself Hraise.
  pose proof (ContainerEnvironment_build_course self o flow push' w Hself
                w eq_refl) as Hcourse.
  destruct (ContainerEnvironment_build self flow push' w) as [[r|e'] w'];
    cbn [fst snd] in *; [done|].
  by destruct Hcourse.
Qed.

Lemma failed_build_allocates_nothing_witness :
  heap (@ContainerEnvironment_build (Demo.externals false) 0 "flow" true
          Demo.world1).2
  = heap Demo.world1.
Proof.
  apply (@failed_build_allocates_nothing (Demo.externals false)
           0 Demo.unbuilt "flow" true Demo.world1
           (ExternalError "docker" "image is being used"));
    vm_compute; reflexivity.
Defined.

(** X14.  A failure of the pull is fatal: [build] raises it after the one
    pull request; nothing is built, pushed or removed. *)
Theorem build_pull_failure `{Externals} self o flow push' e w :
  heap w !! self = Some o ->
  failure (daemon_pull (calls w) (base_image o)) = Some e ->
  (ContainerEnvironment_build self flow push' w).1 = Raises e
  /\ calls (ContainerEnvironment_build self flow push' w).2
     = (calls w ++ [Pull (base_image o)])%list.
Proof.
  intros Hself Hfail. unfold ContainerEnvironment_build.
  erewrite bind_Returns by reflexivity.
  erewrite bind_Returns by reflexivity.
  unfold with_TemporaryDirectory.
  erewrite bind_Raises.
  2:{ rewrite (pull_image_eq self o) by done. cbn zeta.
      cbn [calls set_rng]. unfold drained. rewrite Hfail. reflexivity. }
  done.
Qed.

(** Structural steps of a proof that a method respects a relation; the
    reflexivity and transitivity of the relation are taken from the
    context. *)
Ltac respects_step :=
  lazymatch goal with
  | |- respects _ (_ ≫= _) =>
      eapply respects_bind; [eassumption | | intros ?]
  | |- respects _ (ret _) => eapply respects_ret; eassumption
  | |- respects _ (raise _) => eapply respects_raise; eassumption
  | |- respects _ (lift _) => eapply respects_lift; eassumption
  | |- respects _ (gets _) => eapply respects_gets; eassumption
  | |- respects _ (try_except _ _) =>
      eapply respects_try_except; [eassumption | | intros ?]
  | |- respects _ (for_each _ _) =>
      eapply respects_for_each; [eassumption | eassumption | intros ?]
  | |- respects _ (for_stream _ _) =>
      eapply respects_for_stream; [eassumption | eassumption | intros ?]
  | |- respects _ (if ?b then _ else _) => destruct b
  | |- respects _ (match ?x with _ => _ end) => destruct x
  end.

Section RespectsMethods.

Context `{Externals} (R : World -> World -> Prop).
Hypothesis R_refl : forall w, R w w.
Hypothesis R_trans : forall w1 w2 w3, R w1 w2 -> R w2 w3 -> R w1 w3.
Hypothesis R_stdout : forall f w, R w (set_stdout f w).
Hypothesis R_log : forall f w, R w (set_log f w).
Hypothesis R_draw : forall w, R w (set_rng S w).
Hypothesis R_call : forall c w, R w (set_calls (fun cs => (cs ++ [c])%list) w).
Hypothesis R_alloc : forall o w, R w (set_heap (fun h => (h ++ [o])%list) w).

Lemma respects_print line : respects R (print line).
Proof. intros w. apply R_stdout. Qed.

Lemma respects_logging_info msg : respects R (logging_info msg).
Proof. intros w. apply R_log. Qed.

Lemma respects_draw {A} (source : nat -> A) : respects R (draw source).
Proof. intros w. apply R_draw. Qed.

Lemma respects_request {A} c (answer : list Call -> A) :
  respects R (request c answer).
Proof. intros w. apply R_call. Qed.

Lemma respects_attrs self : respects R (attrs self).
Proof. intros w. unfold attrs. destruct (heap w !! self); apply R_refl. Qed.

Lemma respects_alloc o : respects R (alloc o).
Proof. intros w. apply R_alloc. Qed.

Lemma respects_os_stat path : respects R (os_stat path).
Proof. intros w. unfold os_stat. destruct (fs w !! path); apply R_refl. Qed.

Lemma respects_print_progress output : respects R (print_progress output).
Proof.
  unfold print_progress. repeat first [apply respects_print | respects_step].
Qed.

Lemma respects_pull_image self : respects R (pull_image self).
Proof.
  unfold pull_image.
  repeat first [apply respects_attrs | apply respects_request
               | apply respects_print_progress | respects_step].
Qed.

Lemma respects_push self name tag : respects R (push self name tag).
Proof.
  unfold push.
  repeat first [apply respects_logging_info | apply respects_request
               | apply respects_print_progress | respects_step].
Qed.

Lemma respects__parse_generator_output generator :
  respects R (_parse_generator_output generator).
Proof.
  unfold _parse_generator_output.
  repeat first [apply respects_print | respects_step].
Qed.

Lemma respects_LocalEnvironment_init key payload :
  respects R (LocalEnvironment_init key payload).
Proof.
  unfold LocalEnvironment_init, Fernet.
  repeat first [apply respects_draw | respects_step].
Qed.

Lemma respects_LocalEnvironment_build self flow :
  respects R (LocalEnvironment_build self flow).
Proof.
  unfold LocalEnvironment_build, serialize_flow_to_bytes, Fernet.
  repeat first [apply respects_draw | apply respects_LocalEnvironment_init
               | respects_step].
Qed.

Lemma respects_ContainerEnvironment_init b r d n t e f :
  respects R (ContainerEnvironment_init b r d n t e f).
Proof.
  unfold ContainerEnvironment_init.
  repeat first [apply respects_alloc | apply respects_attrs | respects_step].
Qed.

Lemma respects_ContainerEnvironment_run self kw :
  respects R (ContainerEnvironment_run self kw).
Proof.
  unfold ContainerEnvironment_run.
  repeat first [apply respects_attrs | apply respects_request | respects_step].
Qed.

(** The methods that write files, for a relation that any change of the
    file system preserves. *)
Hypothesis R_fs : forall f w, R w (set_fs f w).

Lemma respects_write_file path text : respects R (write_file path text).
Proof. intros w. apply R_fs. Qed.

Lemma respects_stage_files directory entries :
  respects R (stage_files directory entries).
Proof.
  intros w.
  destruct (stage_files_effect directory entries w) as (Honly & _).
  unfold only_fs in Honly. rewrite Honly. apply R_fs.
Qed.

Lemma respects_create_dockerfile self flow directory :
  respects R (create_dockerfile self flow directory).
Proof.
  unfold create_dockerfile, LocalEnvironment_to_file. cbv zeta.
  repeat first [apply respects_write_file | apply respects_attrs
               | apply respects_stage_files
               | apply respects_LocalEnvironment_init
               | apply respects_LocalEnvironment_build | respects_step].
Qed.

Lemma respects_with_TemporaryDirectory {A} (body : string -> M A) :
  (forall tempdir, respects R (body tempdir)) ->
  respects R (with_TemporaryDirectory body).
Proof.
  intros Hbody w. unfold with_TemporaryDirectory.
  specialize (Hbody (mkdtemp (rng w)) (set_rng S w)).
  destruct (body _ _) as [r w1]. cbn [snd] in *.
  eapply R_trans; [apply R_draw|]. eapply R_trans; [exact Hbody|]. apply R_fs.
Qed.

Lemma respects_ContainerEnvironment_build self flow push' :
  respects R (ContainerEnvironment_build self flow push').
Proof.
  unfold ContainerEnvironment_build.
  repeat first
    [ apply respects_draw
    | apply respects_with_TemporaryDirectory; intros ?
    | apply respects_pull_image | apply respects_create_dockerfile
    | apply respects_attrs | apply respects_logging_info
    | apply respects_request | apply respects__parse_generator_output
    | apply respects_push | apply respects_ContainerEnvironment_init
    | respects_step ].
Qed.

End RespectsMethods.

(** * Two builds in a row *)

Lemma draws_on_refl w : draws_on w w.
Proof. unfold draws_on. lia. Qed.

Lemma draws_on_trans w1 w2 w3 :
  draws_on w1 w2 -> draws_on w2 w3 -> draws_on w1 w3.
Proof. unfold draws_on. lia. Qed.

(** The steps of [build] inside its temporary directory, for a relation
    that the context shows to be preserved by every update of the world. *)
Ltac respects_build_steps :=
  repeat first
    [ eapply respects_pull_image; eassumption
    | eapply respects_create_dockerfile; eassumption
    | eapply respects_attrs; eassumption
    | eapply respects_logging_info; eassumption
    | eapply respects_request; eassumption
    | eapply respects__parse_generator_output; eassumption
    | eapply respects_push; eassumption
    | eapply respects_ContainerEnvironment_init; eassumption
    | respects_step ].

(** Every [build] consumes at least the two draws of its identifiers. *)
Lemma ContainerEnvironment_build_draws `{Externals} self flow push' w :
  2 + rng w <= rng (ContainerEnvironment_build self flow push' w).2.
Proof.
  pose proof draws_on_refl as Hrefl. pose proof draws_on_trans as Htrans.
  assert (Hstdout : forall f w, draws_on w (set_stdout f w)) by done.
  assert (Hlog : forall f w, draws_on w (set_log f w)) by done.
  assert (Hdraw : forall w, draws_on w (set_rng S w))
    by (intros; unfold draws_on; simpl; lia).
  assert (Hcall : forall c w,
            draws_on w (set_calls (fun cs => (cs ++ [c])%list) w)) by done.
  assert (Halloc : forall o w,
            draws_on w (set_heap (fun h => (h ++ [o])%list) w)) by done.
  assert (Hfs : forall f w, draws_on w (set_fs f w)) by done.
  unfold ContainerEnvironment_build.
  erewrite bind_Returns by reflexivity.
  erewrite bind_Returns by reflexivity.
  lazymatch goal with
  | |- context [with_TemporaryDirectory ?b ?W] =>
      assert (respects draws_on (with_TemporaryDirectory b)) as Hinner
  end.
  { eapply respects_with_TemporaryDirectory; [eassumption..|].
    intros tempdir. respects_build_steps. }
  specialize (Hinner (set_rng S (set_rng S w))). unfold draws_on in Hinner.
  cbn [rng set_rng] in Hinner. exact Hinner.
Qed.

(** X15.  Two builds in a row never share an identifier: when [uuid4] does
    not repeat itself, the descriptors
    returned by a [build] and by a later [build] on the same receiver are
    two instances, and their two names and two tags are four different
    identifiers. *)
Theorem builds_are_isolated `{Externals}
    self o flow1 flow2 push1 push2 w r1 w1 r2 w2 :
  (forall n m, uuid4 n = uuid4 m -> n = m) ->
  heap w !! self = Some o ->
  ContainerEnvironment_build self flow1 push1 w = (Returns r1, w1) ->
  ContainerEnvironment_build self flow2 push2 w1 = (Returns r2, w2) ->
  r1 <> r2
  /\ heap w2 !! r1 = Some (built_from o w)
  /\ heap w2 !! r2 = Some (built_from o w1)
  /\ NoDup [ image_name (built_from o w); image_tag (built_from o w);
             image_name (built_from o w1); image_tag (built_from o w1) ].
Proof.
  intros Hinj Hself Hrun1 Hrun2.
  pose proof (ContainerEnvironment_build_spec self o flow1 push1 w Hself
                w eq_refl) as Hspec1.
  rewrite Hrun1 in Hspec1. destruct Hspec1 as (-> & Hheap1 & _).
  assert (Hself1 : heap w1 !! self = Some o)
    by (rewrite Hheap1; by apply lookup_app_l_Some).
  pose proof (ContainerEnvironment_build_spec self o flow2 push2 w1 Hself1
                w1 eq_refl) as Hspec2.
  rewrite Hrun2 in Hspec2. destruct Hspec2 as (-> & Hheap2 & _).
  pose proof (ContainerEnvironment_build_draws self flow1 push1 w) as Hdraws.
  rewrite Hrun1 in Hdraws. cbn [snd] in Hdraws.
  split; [rewrite Hheap1, length_app; simpl; lia|].
  split.
  { rewrite Hheap2. apply lookup_app_l_Some.
    rewrite Hheap1. by apply list_lookup_middle. }
  split; [rewrite Hheap2; by apply list_lookup_middle|].
  cbn [image_name image_tag built_from].
  repeat (apply NoDup_cons; split;
          [ rewrite ?not_elem_of_cons; repeat split;
            try apply not_elem_of_nil;
            intros [= Heq%Hinj]; lia |]).
  apply NoDup_nil_2.
Qed.

Lemma builds_are_isolated_witness :
  let X := Demo.externals true in
  let first := @ContainerEnvironment_build X 0 "flow" true Demo.world1 in
  let second := @ContainerEnvironment_build X 0 "flow" true first.2 in
  1 <> 2
  /\ heap second.2 !! 1 = Some (@built_from X Demo.unbuilt Demo.world1)
  /\ heap second.2 !! 2 = Some (@built_from X Demo.unbuilt first.2)
  /\ NoDup [ image_name (@built_from X Demo.unbuilt Demo.world1);
             image_tag (@built_from X Demo.unbuilt Demo.world1);
             image_name (@built_from X Demo.unbuilt first.2);
             image_tag (@built_from X Demo.unbuilt first.2) ].
Proof.
  intros X first second.
  apply (@builds_are_isolated X 0 Demo.unbuilt "flow" "flow" true true
           Demo.world1 1 first.2 2 second.2).
  - intros n m Heq.
    change ("uuid-" +:+ pretty n = "uuid-" +:+ pretty m) in Heq.
    apply append_inj_r in Heq. by apply (inj pretty) in Heq.
  - reflexivity.
  - vm_compute. reflexivity.
  - vm_compute. reflexivity.
Defined.

(** * The file system after a build *)

Lemma prefix_append (x y : string) : String.prefix x (x +:+ y) = true.
Proof.
  induction x as [|c x IH]; simpl; [by destruct y|].
  destruct (Ascii.ascii_dec c c); [exact IH | done].
Qed.

Lemma append_assoc (x y z : string) : (x +:+ y) +:+ z = x +:+ (y +:+ z).
Proof.
  induction x as [|c x IH]; [done|].
  change (String c ((x +:+ y) +:+ z) = String c (x +:+ (y +:+ z))).
  by rewrite IH.
Qed.

Lemma isabs_has_slash p : os_path.isabs p = true -> os_path.has_slash p = true.
Proof. destruct p as [|c p]; simpl; [done|]. by intros ->. Qed.

Lemma basename_has_no_slash p :
  os_path.has_slash (os_path.basename p) = false.
Proof.
  induction p as [|c p IH]; [done|]. cbn [os_path.basename].
  destruct (os_path.has_slash (String c p)) eqn:Hslash; done.
Qed.

Lemma basename_not_isabs p : os_path.isabs (os_path.basename p) = false.
Proof.
  destruct (os_path.isabs (os_path.basename p)) eqn:Habs; [|done].
  apply isabs_has_slash in Habs. by rewrite basename_has_no_slash in Habs.
Qed.

(** A relative name joined to a plain directory lies below it. *)
Lemma below_join d b :
  plain_directory d -> os_path.isabs b = false ->
  below d (os_path.join d b) = true.
Proof.
  unfold plain_directory, below, os_path.join. intros Hplain ->.
  destruct (String.rev d) as [|c rest]; [done|]. rewrite Hplain.
  rewrite <- (append_assoc d "/" b). apply prefix_append.
Qed.

Lemma outside_refl d w : outside d w w.
Proof. by intros p. Qed.

Lemma outside_trans d w1 w2 w3 :
  outside d w1 w2 -> outside d w2 w3 -> outside d w1 w3.
Proof. intros H12 H23 p Hp. by rewrite H23, H12. Qed.

Lemma outside_write d path f w :
  below d path = true ->
  outside d w (set_fs (fun m => <[path := f]> m) w).
Proof.
  intros Hpath p Hp. cbn [fs set_fs]. apply lookup_insert_ne. congruence.
Qed.

(** The build context is written below the directory it is given. *)
Lemma create_dockerfile_outside `{Externals} self flow d :
  plain_directory d ->
  respects (outside d) (create_dockerfile self flow d).
Proof.
  intros Hplain.
  pose proof (outside_refl d) as Hrefl. pose proof (outside_trans d) as Htrans.
  assert (Hstdout : forall f w, outside d w (set_stdout f w)) by done.
  assert (Hlog : forall f w, outside d w (set_log f w)) by done.
  assert (Hdraw : forall w, outside d w (set_rng S w)) by done.
  assert (Hcall : forall c w,
            outside d w (set_calls (fun cs => (cs ++ [c])%list) w)) by done.
  assert (Halloc : forall o w,
            outside d w (set_heap (fun h => (h ++ [o])%list) w)) by done.
  unfold create_dockerfile, LocalEnvironment_to_file. cbv zeta.
  repeat first
    [ eapply respects_attrs; eassumption
    | eapply respects_LocalEnvironment_init; eassumption
    | eapply respects_LocalEnvironment_build; eassumption
    | respects_step ].
  - intros w. by apply outside_write, below_join.
  - intros w p Hp.
    lazymatch goal with
    | |- context [stage_files d ?entries w] =>
        destruct (stage_files_effect d entries w) as (_ & Hframe & _)
    end.
    apply Hframe. intros src dest _ ->.
    unfold staged_at in Hp.
    rewrite below_join in Hp by (done || apply basename_not_isabs). done.
  - intros w. by apply outside_write, below_join.
  - intros w. by apply outside_write, below_join.
Qed.

(** What [with tempfile.TemporaryDirectory()] leaves of a body that writes
    below the directory only: nothing. *)
Lemma with_TemporaryDirectory_fs `{Externals} {A} (body : string -> M A) w :
  respects (outside (mkdtemp (rng w))) (body (mkdtemp (rng w))) ->
  forall p,
    fs (with_TemporaryDirectory body w).2 !! p
    = if below (mkdtemp (rng w)) p then None else fs w !! p.
Proof.
  intros Hbody p. unfold with_TemporaryDirectory.
  specialize (Hbody (set_rng S w)).
  destruct (body _ _) as [r w1]. cbn [snd fs set_fs] in *.
  destruct (below (mkdtemp (rng w)) p) eqn:Hp.
  - apply map_lookup_filter_None. right. intros f _. simpl. congruence.
  - pose proof (Hbody p Hp) as Hout. cbn [fs set_rng] in Hout.
    rewrite <- Hout.
    destruct (fs w1 !! p) as [f|] eqn:Hf.
    + by apply map_lookup_filter_Some.
    + apply map_lookup_filter_None. by left.
Qed.

(** X16.  A [build] leaves no trace in the file system.  Whether it returns
    or raises, the temporary directory it worked in (a plain directory name,
    as [tempfile] gives) holds no file afterwards, and every file outside it
    is as it was before the call. *)
Theorem build_leaves_no_files `{Externals} self flow push' w :
  plain_directory (mkdtemp (S (S (rng w)))) ->
  forall p,
    fs (ContainerEnvironment_build self flow push' w).2 !! p
    = if below (mkdtemp (S (S (rng w)))) p then None else fs w !! p.
Proof.
  intros Hplain p.
  set (d := mkdtemp (S (S (rng w)))) in *.
  pose proof (outside_refl d) as Hrefl. pose proof (outside_trans d) as Htrans.
  assert (Hstdout : forall f w, outside d w (set_stdout f w)) by done.
  assert (Hlog : forall f w, outside d w (set_log f w)) by done.
  assert (Hdraw : forall w, outside d w (set_rng S w)) by done.
  assert (Hcall : forall c w,
            outside d w (set_calls (fun cs => (cs ++ [c])%list) w)) by done.
  assert (Halloc : forall o w,
            outside d w (set_heap (fun h => (h ++ [o])%list) w)) by done.
  unfold ContainerEnvironment_build.
  erewrite bind_Returns by reflexivity.
  erewrite bind_Returns by reflexivity.
  lazymatch goal with
  | |- context [with_TemporaryDirectory ?b ?W] =>
      pose proof (with_TemporaryDirectory_fs b W) as Hfs
  end.
  cbn [rng set_rng fs] in Hfs. fold d in Hfs. apply Hfs.
  repeat first
    [ apply create_dockerfile_outside; exact Hplain
    | eapply respects_pull_image; eassumption
    | eapply respects_attrs; eassumption
    | eapply respects_logging_info; eassumption
    | eapply respects_request; eassumption
    | eapply respects__parse_generator_output; eassumption
    | eapply respects_push; eassumption
    | eapply respects_ContainerEnvironment_init; eassumption
    | respects_step ].
Qed.

Lemma build_leaves_no_files_witness :
  let w := {| fs := fs Demo.two_sources; heap := [Demo.unbuilt]; calls := [];
              stdout := []; log := []; rng := 0; clock := 1000;
              access_token := None |} in
  let w' := (@ContainerEnvironment_build (Demo.externals true) 0 "flow" true
               w).2 in
  fs w' !! "/tmp/tmp2/Dockerfile" = None
  /\ fs w' !! "/a/foo.txt" = fs w !! "/a/foo.txt".
Proof.
  intros w w'. split.
  - apply (@build_leaves_no_files (Demo.externals true) 0 "flow" true
             w ltac:(reflexivity) "/tmp/tmp2/Dockerfile").
  - apply (@build_leaves_no_files (Demo.externals true) 0 "flow" true
             w ltac:(reflexivity) "/a/foo.txt").
Defined.

Lemma build_pull_failure_witness :
  let X := with_daemon_pull (Demo.externals true)
             (fun _ _ => {| items := [];
                            failure := Some (ExternalError "docker"
                                               "pull access denied") |}) in
  (@ContainerEnvironment_build X 0 "flow" true Demo.world1).1
  = Raises (ExternalError "docker" "pull access denied")
  /\ calls (@ContainerEnvironment_build X 0 "flow" true Demo.world1).2
     = (calls Demo.world1 ++ [Pull "python:3.7"])%list.
Proof.
  intros X.
  apply (@build_pull_failure X 0 Demo.unbuilt "flow" true); reflexivity.
Defined.

(** * Running what was built *)

Lemma ContainerEnvironment_run_built `{Externals} self o name tag kw w :
  heap w !! self = Some o ->
  image_name o = Some name ->
  image_tag o = Some tag ->
  let image := os_path.join (registry_url o) name +:+ ":" +:+ tag in
  ContainerEnvironment_run self kw w =
  (daemon_create_container (calls w) image run_command true,
   set_calls (fun cs => (cs ++ [CreateContainer image run_command true])%list) w).
Proof.
  intros Hself Hname Htag image.
  unfold ContainerEnvironment_run, attrs, lift, request, mbind, M_bind, bind.
  rewrite Hself, Hname, Htag. simpl. fold image.
  by destruct (daemon_create_container _ _ _ _).
Qed.

(** X17.  Build, then run: [run] on the descriptor a [build] has returned
    sends one request, for a detached container of the image reference that
    this [build] tagged, and returns the daemon's answer; by then [build]
    has asked the daemon to remove that image locally. *)
Theorem build_then_run `{Externals} self o flow push' kw w r w1 :
  heap w !! self = Some o ->
  ContainerEnvironment_build self flow push' w = (Returns r, w1) ->
  ContainerEnvironment_run r kw w1 =
  (daemon_create_container (calls w1) (built_image o w) run_command true,
   set_calls (fun cs => (cs ++ [CreateContainer (built_image o w)
                                                run_command true])%list) w1)
  /\ removal_requested (built_image o w) w1.
Proof.
  intros Hself Hrun.
  pose proof (ContainerEnvironment_build_spec self o flow push' w Hself
                w eq_refl) as Hspec.
  rewrite Hrun in Hspec. destruct Hspec as (-> & Hheap & Hremoved).
  split; [|done].
  apply (ContainerEnvironment_run_built _ (built_from o w)); [|done..].
  rewrite Hheap. by apply list_lookup_middle.
Qed.

Lemma build_then_run_witness :
  let X := Demo.externals true in
  let w1 := (@ContainerEnvironment_build X 0 "flow" true Demo.world1).2 in
  @ContainerEnvironment_run X 1 None w1 =
  (Returns "container of myrepo/uuid-0:uuid-1",
   set_calls (fun cs => (cs ++ [CreateContainer "myrepo/uuid-0:uuid-1"
                                                run_command true])%list) w1)
  /\ removal_requested "myrepo/uuid-0:uuid-1" w1.
Proof.
  intros X w1.
  apply (@build_then_run X 0 Demo.unbuilt "flow" true None Demo.world1 1 w1).
  - reflexivity.
  - vm_compute. reflexivity.
Defined.
